(** * Terraboard HTTP API handlers ([api/api.go]): a shallow embedding

    The handlers of [api/api.go] are translated to functions in a small
    writer monad that records, in order, every observable action of a
    handler: the calls it makes to the database and to the state providers,
    the documents it hands to [io.WriteString] and the messages it logs.

    [encoding/json] documents are represented by their syntax tree; a Go
    [(value, error)] result is a pair whose second component is
    [option error] ([None] is Go's [nil]). *)

From Stdlib Require Import String List ZArith Lia Permutation.
From stdpp Require Import base option list gmap strings fin_maps sorting lexico.

(** ** Go built-ins *)

(** Modelled from the spec: the error taxonomy of section 7.  The source
    only manipulates values of Go's [error] interface; the concrete error
    types live in the packages [db], [state] and [compare], which are not
    part of the visible source. *)
Inductive ErrorKind :=
| MalformedSnapshotError
| UnknownLineageError
| VersionNotFoundError
| DivergentVersionError
| ProviderUnavailableError
| IncomparableSnapshotError
| OtherError.

(** Go's [error] interface: a value carrying the text of its [Error()]
    method. *)
Record error := mkError { err_kind : ErrorKind; Error : string }.

(** A Go result [(T, error)]; [None] is [nil]. *)
Definition GoResult (T : Type) : Type := (T * option error)%type.

(** [fmt.Sprintf("%v", err)]. *)
Definition Sprintf_v (err : option error) : string :=
  match err with
  | Some e => Error e
  | None => "<nil>"
  end.

(** ** Package [encoding/json]: documents and [Marshal] on maps *)

Module json.

#[local] Unset Elimination Schemes.
Inductive t :=
| JNull
| JBool (b : bool)
| JNumber (n : Z)
| JString (s : string)
| JArray (items : list t)
| JObject (members : list (string * t)).
#[local] Set Elimination Schemes.

(** Order in which [Marshal] emits the keys of a map: increasing byte-wise
    string order. *)
Definition key_le {V : Type} : relation (string * V) :=
  fun a b => String.le a.1 b.1.

#[global] Instance key_le_dec {V : Type} (a b : string * V) :
  Decision (key_le a b).
Proof. unfold key_le. apply _. Defined.

Definition sortedEntries {V : Type} (m : gmap string V) : list (string * V) :=
  merge_sort key_le (map_to_list m).

(** Encoding of the entries of a map in key order; the first value that
    cannot be encoded aborts the encoding with its error. *)
Fixpoint marshalMembers {V : Type} (enc : V -> GoResult t)
    (kvs : list (string * V)) : GoResult (list (string * t)) :=
  match kvs with
  | [] => ([], None)
  | (k, v) :: rest =>
      match enc v with
      | (_, Some e) => ([], Some e)
      | (j, None) =>
          match marshalMembers enc rest with
          | (_, Some e) => ([], Some e)
          | (js, None) => ((k, j) :: js, None)
          end
      end
  end.

(** [json.Marshal] on a non-nil [map[string]V]. *)
Definition MarshalMap {V : Type} (enc : V -> GoResult t)
    (m : gmap string V) : GoResult t :=
  match marshalMembers enc (sortedEntries m) with
  | (_, Some e) => (JNull, Some e)
  | (ms, None) => (JObject ms, None)
  end.

(** [json.Marshal] on a Go string never fails. *)
Definition MarshalString (s : string) : GoResult t := (JString s, None).

(** The members of an object (none for any other document). *)
Definition members (j : t) : list (string * t) :=
  match j with
  | JObject ms => ms
  | _ => []
  end.

End json.

(** ** Package [state]: lock reports and providers *)

Module state.

(** Modelled from the spec: [state.LockInfo] is declared in package [state],
    which is not part of the visible source.  Section 3 lists its
    attributes: lock holder identity, acquisition timestamp, operation
    description and lineage key. *)
Record LockInfo := mkLockInfo {
  Who : string;
  Created : Z;
  Operation : string;
  Path : string
}.

(** [state.Provider]: the interface method the handlers call.  A provider
    value stands for one backing store at the time of the request, so its
    [GetLocks] is the result that the call returns. *)
Record Provider := mkProvider {
  GetLocks : GoResult (gmap string LockInfo)
}.

End state.

(** ** Packages [db] and [compare]: what the handlers use of them

    Neither package is part of the visible source; the handlers are
    translated against their signatures. *)

Module db.

(** The types the handlers pass between [db], [compare] and
    [encoding/json], with [compare.Compare] and the JSON encodings of these
    types. *)
Class Types := {
  (** [types.State], the value [Database.GetState] returns *)
  State : Type;
  (** the value [compare.Compare] returns *)
  Comparison : Type;
  Compare : State -> State -> GoResult Comparison;
  marshal_State : State -> GoResult json.t;
  marshal_Comparison : Comparison -> GoResult json.t;
  marshal_LockInfo : state.LockInfo -> GoResult json.t
}.

(** The methods of [*db.Database] called by [GetState] and
    [StateCompare]. *)
Class Database `{Types} (D : Type) := {
  DefaultVersion : D -> string -> GoResult string;
  GetState : D -> string -> string -> State
}.

End db.

(** ** [net/http] and [gorilla/mux] *)

(** [http.ResponseWriter], seen through [io.WriteString]: writing a
    document either succeeds or returns an error. *)
Record ResponseWriter := mkWriter {
  WriteString : json.t -> option error
}.

(** [*http.Request], restricted to what the handlers read: the route
    variables ([mux.Vars]) and the URL query ([r.URL.Query()]). *)
Record Request := mkRequest {
  Vars : gmap string string;
  Query : gmap string (list string)
}.

(** [url.Values.Get]: the first value of the key, or the empty string. *)
Definition Get (q : gmap string (list string)) (key : string) : string :=
  match q !! key with
  | Some (v :: _) => v
  | _ => ""
  end.

(** Indexing a [map[string]string]: the zero value when the key is absent. *)
Definition index (m : gmap string string) (key : string) : string :=
  default "" (m !! key).

(** ** Package [api] *)

Module api.

Section Monad.
Context `{db.Types}.

(** What a handler does that its environment can observe. *)
Inductive Event :=
| EvDefaultVersion (lineage : string)
| EvGetState (lineage versionID : string)
| EvCompare (from to : db.State)
| EvGetLocks (sp : state.Provider)
| EvWrite (doc : json.t)
| EvLogError (msg : string).

(** A handler step: its result and the events it produced, in order. *)
Definition Handler (A : Type) : Type := (A * list Event)%type.

Definition ret {A : Type} (a : A) : Handler A := (a, []).

Definition bind {A B : Type} (m : Handler A) (k : A -> Handler B) : Handler B :=
  let '(a, t1) := m in
  let '(b, t2) := k a in
  (b, t1 ++ t2).

Definition emit (e : Event) : Handler unit := (tt, [e]).

Definition trace {A : Type} (m : Handler A) : list Event := m.2.

End Monad.

Arguments bind : simpl never.

Notation "x <- m ;; k" := (bind m (fun x => k))
  (at level 100, m at next level, right associativity).
Notation "m ;; k" := (bind m (fun _ => k))
  (at level 100, right associativity).

Section Handlers.
Context `{db.Types} {D : Type} `{!db.Database D}.

(** [io.WriteString(w, string(j))], logging a failed write. *)
Definition writeString (w : ResponseWriter) (j : json.t) : Handler unit :=
  emit (EvWrite j) ;;
  match WriteString w j with
  | Some e => emit (EvLogError (Error e))
  | None => ret tt
  end.

(** JSONError is a wrapper function for errors which prints them to the
    http.ResponseWriter as a JSON response. *)
Definition JSONError (w : ResponseWriter) (message : string)
    (err : option error) : Handler unit :=
  let errObj : gmap string string := ∅ in
  let errObj := <["error" := message]> errObj in
  let errObj := <["details" := Sprintf_v err]> errObj in
  let '(j, _) := json.MarshalMap json.MarshalString errObj in
  writeString w j.

(** Calls to the collaborators, recorded in the trace. *)
Definition call_DefaultVersion (d : D) (lineage : string)
    : Handler (GoResult string) :=
  emit (EvDefaultVersion lineage) ;; ret (db.DefaultVersion d lineage).

Definition call_GetState (d : D) (lineage versionID : string)
    : Handler db.State :=
  emit (EvGetState lineage versionID) ;; ret (db.GetState d lineage versionID).

Definition call_Compare (from to : db.State) : Handler (GoResult db.Comparison) :=
  emit (EvCompare from to) ;; ret (db.Compare from to).

Definition call_GetLocks (sp : state.Provider)
    : Handler (GoResult (gmap string state.LockInfo)) :=
  emit (EvGetLocks sp) ;; ret (state.GetLocks sp).

(** The tail shared by the handlers: write the document, or the error
    response when marshalling failed. *)
Definition respond (w : ResponseWriter) (failure : string)
    (r : GoResult json.t) : Handler unit :=
  let '(j, err) := r in
  match err with
  | Some _ => JSONError w failure err
  | None => writeString w j
  end.

(** GetState provides information on a State. *)
Definition GetState (w : ResponseWriter) (r : Request) (d : D) : Handler unit :=
  let params := Vars r in
  let versionID := Get (Query r) "versionid" in
  resolved <-
    (if decide (versionID = "") then
       res <- call_DefaultVersion d (index params "lineage") ;;
       let '(versionID, err) := res in
       match err with
       | Some _ =>
           JSONError w "Failed to retrieve default version" err ;; ret None
       | None => ret (Some versionID)
       end
     else ret (Some versionID)) ;;
  match resolved with
  | None => ret tt
  | Some versionID =>
      st <- call_GetState d (index params "lineage") versionID ;;
      respond w "Failed to marshal state" (db.marshal_State st)
  end.

(** StateCompare compares two versions ('from' and 'to') of a State. *)
Definition StateCompare (w : ResponseWriter) (r : Request) (d : D)
    : Handler unit :=
  let params := Vars r in
  let query := Query r in
  let fromVersion := Get query "from" in
  let toVersion := Get query "to" in
  from <- call_GetState d (index params "lineage") fromVersion ;;
  to <- call_GetState d (index params "lineage") toVersion ;;
  res <- call_Compare from to ;;
  let '(compare, err) := res in
  match err with
  | Some _ => JSONError w "Failed to compare state versions" err
  | None =>
      respond w "Failed to marshal state compare" (db.marshal_Comparison compare)
  end.

(** The inner loop of [GetLocks]:
    [for k, v := range locks { allLocks[k] = v }]. *)
Definition mergeLocks (locks allLocks : gmap string state.LockInfo)
    : gmap string state.LockInfo :=
  map_fold (fun k v acc => <[k := v]> acc) allLocks locks.

(** The outer loop of [GetLocks]; [None] when the handler has returned
    from inside the loop. *)
Fixpoint collectLocks (w : ResponseWriter) (sps : list state.Provider)
    (allLocks : gmap string state.LockInfo)
    : Handler (option (gmap string state.LockInfo)) :=
  match sps with
  | [] => ret (Some allLocks)
  | sp :: rest =>
      res <- call_GetLocks sp ;;
      let '(locks, err) := res in
      match err with
      | Some _ =>
          JSONError w "Failed to get locks on a provider" err ;; ret None
      | None => collectLocks w rest (mergeLocks locks allLocks)
      end
  end.

(** GetLocks returns information on locked States. *)
Definition GetLocks (w : ResponseWriter) (sps : list state.Provider)
    : Handler unit :=
  collected <- collectLocks w sps ∅ ;;
  match collected with
  | None => ret tt
  | Some allLocks =>
      respond w "Failed to marshal locks"
        (json.MarshalMap db.marshal_LockInfo allLocks)
  end.

End Handlers.

End api.

(** ** The Lineage Registry behind [db.Database] *)

Module registry.

Section Registry.
Context `{db.Types}.

(** Modelled from the spec: package [db] is not part of the visible source.
    A Version (section 3) is one immutable snapshot: owning lineage key,
    version identifier, serial, content hash and payload. *)
Record Version := mkVersion {
  lineage : string;
  versionID : string;
  serial : Z;
  hash : string;
  payload : db.State
}.

(** Modelled from the spec: the persisted state (section 6) is a table of
    Versions. *)
Definition Registry : Type := list Version.

Definition versionsOf (reg : Registry) (lin : string) : list Version :=
  filter (fun v => lineage v = lin) reg.

(** The identifier belongs to the lineage. *)
Definition belongs (reg : Registry) (lin vid : string) : Prop :=
  exists v, v ∈ reg /\ lineage v = lin /\ versionID v = vid.

(** Modelled from the spec: the most recent of a list of versions, by
    serial (section 4.3). *)
Fixpoint latest (vs : list Version) : option Version :=
  match vs with
  | [] => None
  | v :: rest =>
      match latest rest with
      | None => Some v
      | Some u => if decide (serial u < serial v)%Z then Some v else Some u
      end
  end.

(** Modelled from the spec: the [UnknownLineageError] of section 7; the
    spec does not fix its text. *)
Definition unknownLineage (lin : string) : error :=
  mkError UnknownLineageError ("unknown lineage " +:+ lin).

(** Modelled from the spec: [DefaultVersion] of package [db], which is not
    part of the visible source.  Section 4.3: it resolves to the most
    recent Version by serial, failing with [UnknownLineageError] if the
    lineage has no versions. *)
Definition DefaultVersion (reg : Registry) (lin : string) : GoResult string :=
  match latest (versionsOf reg lin) with
  | Some v => (versionID v, None)
  | None => ("", Some (unknownLineage lin))
  end.

(** Modelled from the spec: [GetState] of package [db], which is not part of
    the visible source.  Section 6: [LoadVersion(lineage, versionID)]
    returns the snapshot recorded under that pair; its Go signature has no
    error result, so an unrecorded pair yields the [zero] state given
    here. *)
Definition GetState (zero : db.State) (reg : Registry) (lin vid : string)
    : db.State :=
  match filter (fun v => versionID v = vid) (versionsOf reg lin) with
  | v :: _ => payload v
  | [] => zero
  end.

(** The registry as the database of the handlers. *)
Definition database (zero : db.State) : db.Database Registry :=
  {| db.DefaultVersion := DefaultVersion; db.GetState := GetState zero |}.

End Registry.

End registry.

(** ** The Diff Engine behind [compare.Compare] *)

Module compare.

(** Modelled from the spec: package [compare] is not part of the visible
    source.  Section 4.1: a resource identifier is the canonical tuple
    (module path, type, name, index). *)
Record ResourceId := mkResourceId {
  module_path : string;
  rtype : string;
  rname : string;
  rindex : N
}.

#[global] Instance ResourceId_eq_dec : EqDecision ResourceId.
Proof. solve_decision. Defined.

Definition ResourceId_to_tuple (r : ResourceId) : string * string * string * N :=
  (module_path r, rtype r, rname r, rindex r).

Definition ResourceId_of_tuple (p : string * string * string * N) : ResourceId :=
  let '(m, t, n, i) := p in mkResourceId m t n i.

#[global] Instance ResourceId_countable : Countable ResourceId.
Proof.
  apply (inj_countable' ResourceId_to_tuple ResourceId_of_tuple).
  by intros [].
Defined.

Inductive ChangeKind := added | removed | modified.

(** Strict byte-wise order on strings, and the lexicographic orders built
    from it. *)
#[global] Instance string_lexico : Lexico string := strict String.le.

(** Modelled from the spec: the Attribute Tree (section 3), after the
    flattening of section 4.1: resource identifier, then attribute path,
    then value.  Every attribute is a leaf, so an ordered list occupies one
    indexed path per element and is compared element by index. *)
Abbreviation Attributes Value := (gmap string Value).
Abbreviation AttributeTree Value := (gmap ResourceId (gmap string Value)).

Section Diff.
Context {Value : Type} `{EqDecision Value}.

(** Modelled from the spec: a ChangeEntry (section 3).  The attribute path
    is absent on the marker of an added or removed resource. *)
Record ChangeEntry := mkChangeEntry {
  resource : ResourceId;
  path : option string;
  kind : ChangeKind;
  old : option Value;
  new : option Value
}.

(** The sort key of an entry: resource identifier, then attribute path. *)
Abbreviation Key := (string * string * string * N * (bool * string))%type.

Definition path_key (p : option string) : bool * string :=
  match p with
  | None => (false, "")
  | Some s => (true, s)
  end.

Definition entry_key (e : ChangeEntry) : Key :=
  (ResourceId_to_tuple (resource e), path_key (path e)).

(** The resource identifier and the attribute path of an entry. *)
Definition place (e : ChangeEntry) : ResourceId * option string :=
  (resource e, path e).

(** Modelled from the spec: the invariant ordering of section 3, by
    resource identifier, then attribute path; the marker of a resource
    comes before the entries of its attributes. *)
Definition entry_le : relation ChangeEntry :=
  fun e1 e2 => ¬ lexico (entry_key e2) (entry_key e1).

(** The order in which one run enumerates the resources of a tree and the
    attributes of a resource.  Section 4.2 computes over sets of
    identifiers and of paths and leaves the order of enumeration open; a
    map fixes the entries, not their order. *)
Record Schedule := mkSchedule {
  resources_of : AttributeTree Value -> list (ResourceId * Attributes Value);
  attributes_of : Attributes Value -> list (string * Value)
}.

Definition fair (s : Schedule) : Prop :=
  (forall t, resources_of s t ≡ₚ map_to_list t) /\
  (forall a, attributes_of s a ≡ₚ map_to_list a).

Definition canonical : Schedule := mkSchedule map_to_list map_to_list.

Section Run.
Variable s : Schedule.

(** Modelled from the spec: steps 1 and 2 of section 4.2.  A resource
    present in one tree only contributes one marker and one entry per
    attribute it holds. *)
Definition removedResource (rid : ResourceId) (attrs : Attributes Value)
    : list ChangeEntry :=
  mkChangeEntry rid None removed None None ::
  ((fun pv => mkChangeEntry rid (Some pv.1) removed (Some pv.2) None)
     <$> attributes_of s attrs).

Definition addedResource (rid : ResourceId) (attrs : Attributes Value)
    : list ChangeEntry :=
  mkChangeEntry rid None added None None ::
  ((fun pv => mkChangeEntry rid (Some pv.1) added None (Some pv.2))
     <$> attributes_of s attrs).

(** Modelled from the spec: step 3 of section 4.2.  A resource present in
    both trees is compared attribute by attribute: removed, modified (the
    values differ) or, for a path of the [to] tree only, added; equal
    values give no entry. *)
Definition changedAttribute (rid : ResourceId) (toAttrs : Attributes Value)
    (pv : string * Value) : list ChangeEntry :=
  match toAttrs !! pv.1 with
  | None => [mkChangeEntry rid (Some pv.1) removed (Some pv.2) None]
  | Some y =>
      if decide (pv.2 = y) then []
      else [mkChangeEntry rid (Some pv.1) modified (Some pv.2) (Some y)]
  end.

Definition addedAttribute (rid : ResourceId) (fromAttrs : Attributes Value)
    (pv : string * Value) : list ChangeEntry :=
  match fromAttrs !! pv.1 with
  | None => [mkChangeEntry rid (Some pv.1) added None (Some pv.2)]
  | Some _ => []
  end.

Definition commonResource (rid : ResourceId) (fromAttrs toAttrs : Attributes Value)
    : list ChangeEntry :=
  (attributes_of s fromAttrs ≫= changedAttribute rid toAttrs) ++
  (attributes_of s toAttrs ≫= addedAttribute rid fromAttrs).

Definition fromOnly (fromTree toTree : AttributeTree Value) : list ChangeEntry :=
  resources_of s fromTree ≫= fun ra =>
    match toTree !! ra.1 with
    | None => removedResource ra.1 ra.2
    | Some _ => []
    end.

Definition toOnly (fromTree toTree : AttributeTree Value) : list ChangeEntry :=
  resources_of s toTree ≫= fun ra =>
    match fromTree !! ra.1 with
    | None => addedResource ra.1 ra.2
    | Some _ => []
    end.

Definition inBoth (fromTree toTree : AttributeTree Value) : list ChangeEntry :=
  resources_of s fromTree ≫= fun ra =>
    match toTree !! ra.1 with
    | None => []
    | Some toAttrs => commonResource ra.1 ra.2 toAttrs
    end.

(** The entries of steps 1 to 3, before the sort of step 5. *)
Definition changes (fromTree toTree : AttributeTree Value) : list ChangeEntry :=
  fromOnly fromTree toTree ++ toOnly fromTree toTree ++ inBoth fromTree toTree.

(** Modelled from the spec: [Compare] of package [compare], which is not
    part of the visible source; the algorithm of section 4.2, run under the
    enumeration order [s].  Trees of this type are well formed, so the
    error result is always [nil]. *)
Definition CompareWith (fromTree toTree : AttributeTree Value)
    : GoResult (list ChangeEntry) :=
  (merge_sort entry_le (changes fromTree toTree), None).

End Run.

Definition Compare : AttributeTree Value -> AttributeTree Value -> GoResult (list ChangeEntry) :=
  CompareWith canonical.

End Diff.

End compare.

(** ** Reading a trace *)

Module obs.

Import json api.

Section Observations.
Context `{db.Types}.

(** The documents handed to [io.WriteString], in order. *)
Definition written (t : list Event) : list json.t :=
  omap (fun e => match e with EvWrite doc => Some doc | _ => None end) t.

(** The providers whose [GetLocks] was called, in order. *)
Definition providersCalled (t : list Event) : list state.Provider :=
  omap (fun e => match e with EvGetLocks sp => Some sp | _ => None end) t.

(** The (lineage, version) pairs passed to [Database.GetState], in order. *)
Definition statesLoaded (t : list Event) : list (string * string) :=
  omap (fun e => match e with EvGetState l v => Some (l, v) | _ => None end) t.

(** The lineages passed to [Database.DefaultVersion], in order. *)
Definition defaultsAsked (t : list Event) : list string :=
  omap (fun e => match e with EvDefaultVersion l => Some l | _ => None end) t.

(** The response [JSONError] builds from a message and the text of an
    error. *)
Definition errorDoc (message details : string) : json.t :=
  JObject [("details", JString details); ("error", JString message)].

Definition isErrorDoc (doc : json.t) : Prop :=
  exists message details, doc = errorDoc message details.

(** Some written document has a member named [k]. *)
Definition reportsKey (t : list Event) (k : string) : Prop :=
  exists doc j, doc ∈ written t /\ (k, j) ∈ members doc.

(** The members named [k] of a document. *)
Definition membersNamed (k : string) (doc : json.t) : list (string * json.t) :=
  filter (fun m => m.1 = k) (members doc).

(** The entries under key [k] of a lock mapping. *)
Definition entriesUnder (k : string) (m : gmap string state.LockInfo)
    : list (string * state.LockInfo) :=
  filter (fun kv => kv.1 = k) (map_to_list m).

(** The provider's [GetLocks] returned without error. *)
Definition succeeds (sp : state.Provider) : Prop := (state.GetLocks sp).2 = None.

(** The locks the provider returned. *)
Definition locksOf (sp : state.Provider) : gmap string state.LockInfo :=
  (state.GetLocks sp).1.

(** The mapping the outer loop of [GetLocks] has built from [acc] once
    every provider of [sps] has answered. *)
Definition merged (sps : list state.Provider)
    (acc : gmap string state.LockInfo) : gmap string state.LockInfo :=
  foldl (fun acc sp => mergeLocks (locksOf sp) acc) acc sps.

End Observations.

End obs.

(** ** A concrete instance of the collaborators

    Used to run the handlers on concrete requests: states are attribute
    trees with string leaves, the database is a registry and the diff
    engine is [compare.Compare]. *)

Module example.

Import json compare.

Definition marshalAttributes (a : gmap string string) : json.t :=
  JObject ((fun pv => (pv.1, JString pv.2)) <$> sortedEntries a).

Definition marshalResourceId (r : ResourceId) : list (string * json.t) :=
  [("module", JString (module_path r)); ("type", JString (rtype r));
   ("name", JString (rname r)); ("index", JNumber (Z.of_N (rindex r)))].

Definition marshalState (t : AttributeTree string) : GoResult json.t :=
  (JArray ((fun ra => JObject (marshalResourceId ra.1 ++
                                 [("attributes", marshalAttributes ra.2)]))
             <$> map_to_list t), None).

Definition marshalValue (v : option string) : json.t :=
  match v with
  | None => JNull
  | Some s => JString s
  end.

Definition marshalKind (k : ChangeKind) : json.t :=
  JString match k with
          | added => "added"
          | removed => "removed"
          | modified => "modified"
          end.

Definition marshalEntry (e : ChangeEntry (Value := string)) : json.t :=
  JObject (marshalResourceId (resource e) ++
           [("path", marshalValue (path e)); ("kind", marshalKind (kind e));
            ("old", marshalValue (old e)); ("new", marshalValue (new e))]).

Definition marshalComparison (c : list (ChangeEntry (Value := string)))
    : GoResult json.t :=
  (JArray (marshalEntry <$> c), None).

Definition marshalLockInfo (l : state.LockInfo) : GoResult json.t :=
  (JObject [("Who", JString (state.Who l)); ("Created", JNumber (state.Created l));
            ("Operation", JString (state.Operation l));
            ("Path", JString (state.Path l))], None).

#[local] Instance types : db.Types := {|
  db.State := AttributeTree string;
  db.Comparison := list (ChangeEntry (Value := string));
  db.Compare := Compare;
  db.marshal_State := marshalState;
  db.marshal_Comparison := marshalComparison;
  db.marshal_LockInfo := marshalLockInfo
|}.

#[local] Instance database : db.Database registry.Registry :=
  registry.database (∅ : AttributeTree string).

(** A writer that accepts every document. *)
Definition okWriter : ResponseWriter := mkWriter (fun _ => None).

Definition vpc : ResourceId := mkResourceId "" "aws_vpc" "main" 0.
Definition subnet : ResourceId := mkResourceId "" "aws_subnet" "a" 0.

Definition vpc_v1 : AttributeTree string :=
  {[ vpc := {[ "cidr_block" := "10.0.0.0/16" ]} ]}.
Definition vpc_v2 : AttributeTree string :=
  <[ subnet := {[ "cidr_block" := "10.1.1.0/24" ]} ]>
    {[ vpc := {[ "cidr_block" := "10.1.0.0/16" ]} ]}.

(** Two lineages: ["prod/vpc"] with versions ["v1"] and ["v2"], and
    ["prod/db"] with version ["d1"]. *)
Definition reg0 : registry.Registry :=
  [ registry.mkVersion "prod/vpc" "v1" 1 "h1" vpc_v1;
    registry.mkVersion "prod/vpc" "v2" 2 "h2" vpc_v2;
    registry.mkVersion "prod/db" "d1" 1 "h3" ∅ ].

Definition request (lin : string) (q : list (string * list string)) : Request :=
  mkRequest {[ "lineage" := lin ]} (list_to_map q).

Definition alice : state.LockInfo :=
  state.mkLockInfo "alice" 1700000000 "OperationTypeApply" "prod/vpc".
Definition bob : state.LockInfo :=
  state.mkLockInfo "bob" 1700000500 "OperationTypePlan" "prod/vpc".

Definition unavailable : error :=
  mkError ProviderUnavailableError "provider s3 unavailable".

(** A provider holding the lock [l] on ["prod/vpc"], and one that fails. *)
Definition locked (l : state.LockInfo) : state.Provider :=
  state.mkProvider ({[ "prod/vpc" := l ]}, None).
Definition failing : state.Provider :=
  state.mkProvider (∅, Some unavailable).

(** An enumeration order that visits every map backwards. *)
Definition backwards : Schedule (Value := string) :=
  mkSchedule (fun t => reverse (map_to_list t)) (fun a => reverse (map_to_list a)).

End example.

(** ** Lock reports that do not conflict *)

Module locks.

(** The providers never disagree on a key: two reports for the same key
    are the same lock. *)
Definition agree (sps : list state.Provider) : Prop :=
  forall p q k v1 v2,
    p ∈ sps -> q ∈ sps ->
    obs.locksOf p !! k = Some v1 -> obs.locksOf q !! k = Some v2 -> v1 = v2.

End locks.

(** ** The remaining handlers of package [api] *)

(** The methods of [*db.Database] and the function of package [auth] that
    the remaining handlers call.  Neither package is part of the visible
    source: the values they return are only handed to [json.Marshal], so
    they are kept abstract, with their encoding. *)
Module dbq.

Class Values := {
  (** a Go value returned by [db] or [auth] and passed as [interface{}] *)
  Any : Type;
  (** [json.Marshal] on such a value *)
  Marshal : Any -> GoResult json.t;
  (** [auth.UserInfo(name, email)] *)
  UserInfo : string -> string -> Any
}.

Class Queries `{Values} (D : Type) := {
  ListTerraformVersionsWithCount : D -> gmap string (list string) -> GoResult Any;
  ListStateStats : D -> gmap string (list string) -> Any * Any * Any;
  GetLineageActivity : D -> string -> Any;
  SearchAttribute : D -> gmap string (list string) -> Any * Any * Any;
  ListResourceTypes : D -> GoResult Any;
  ListResourceTypesWithCount : D -> GoResult Any;
  ListResourceNames : D -> GoResult Any;
  ListAttributeKeys : D -> string -> GoResult Any;
  ListTfVersions : D -> GoResult Any;
  InsertPlan : D -> string -> option error;
  GetPlansSummary : D -> string -> string -> string -> Any * Any * Any;
  GetPlan : D -> string -> Any;
  GetPlans : D -> string -> string -> string -> Any * Any * Any;
  GetLineages : D -> string -> Any
}.

End dbq.

(** [*http.Request] for the handlers that also read the method, the
    headers or the body.  [Body] is what [ioutil.ReadAll(r.Body)]
    returns; the header map is keyed by canonical header names, which is
    what [Header.Get] looks up. *)
Record FullRequest := mkFullRequest {
  routed :> Request;
  Method : string;
  Header : gmap string (list string);
  Body : GoResult string
}.

Module handlers.

Section Monad.
Context `{db.Types} `{dbq.Values}.

(** The calls of the remaining handlers to their collaborators. *)
Inductive Call :=
| CListTerraformVersionsWithCount (query : gmap string (list string))
| CListStateStats (query : gmap string (list string))
| CGetLineageActivity (lineage : string)
| CSearchAttribute (query : gmap string (list string))
| CListResourceTypes
| CListResourceTypesWithCount
| CListResourceNames
| CListAttributeKeys (resourceType : string)
| CListTfVersions
| CUserInfo (name email : string)
| CReadAll
| CInsertPlan (body : string)
| CGetPlansSummary (lineage limit page : string)
| CGetPlan (id : string)
| CGetPlans (lineage limit page : string)
| CGetLineages (limit : string).

(** What these handlers do: the events of [api] (writes and log lines), the
    calls above, and [http.Error]. *)
Inductive Event :=
| Ev (e : api.Event)
| EvCall (c : Call)
| EvHttpError (msg : string) (code : Z).

Definition Handler (A : Type) : Type := (A * list Event)%type.

Definition ret {A : Type} (a : A) : Handler A := (a, []).

Definition bind {A B : Type} (m : Handler A) (k : A -> Handler B) : Handler B :=
  ((k m.1).1, m.2 ++ (k m.1).2).

Definition emit (e : Event) : Handler unit := (tt, [e]).

Definition trace {A : Type} (m : Handler A) : list Event := m.2.

(** A step of package [api] run inside these handlers. *)
Definition lift {A : Type} (m : api.Handler A) : Handler A :=
  (m.1, Ev <$> m.2).

(** A call to a collaborator, recorded with the value it returns. *)
Definition call {A : Type} (c : Call) (result : A) : Handler A :=
  (result, [EvCall c]).

(** [log.Errorf(format, err)] with a format that ends in [%v]. *)
Definition Errorf (prefix : string) (err : option error) : Handler unit :=
  emit (Ev (api.EvLogError (prefix +:+ Sprintf_v err))).

End Monad.

Notation "x <~ m ;; k" := (bind m (fun x => k))
  (at level 100, m at next level, right associativity).
Notation "m ;;; k" := (bind m (fun _ => k))
  (at level 100, right associativity).

Section Handlers.
Context `{db.Types} `{dbq.Values} {D : Type} `{!dbq.Queries D}.

(** ListTerraformVersionsWithCount lists Terraform versions with their
    associated counts, sorted by the 'orderBy' parameter. *)
Definition ListTerraformVersionsWithCount (w : ResponseWriter)
    (r : FullRequest) (d : D) : Handler unit :=
  let query := Query r in
  res <~ call (CListTerraformVersionsWithCount query)
           (dbq.ListTerraformVersionsWithCount d query) ;;
  let '(versions, _) := res in
  lift (api.respond w "Failed to marshal states" (dbq.Marshal versions)).

(** The response object of the paginated handlers: three assignments to a
    fresh [map[string]interface{}]. *)
Definition pagedResponse (key : string) (items page total : dbq.Any)
    : gmap string dbq.Any :=
  let response : gmap string dbq.Any := ∅ in
  let response := <[key := items]> response in
  let response := <["page" := page]> response in
  let response := <["total" := total]> response in
  response.

(** ListStateStats returns State information for a given path as
    parameter. *)
Definition ListStateStats (w : ResponseWriter) (r : FullRequest) (d : D)
    : Handler unit :=
  let query := Query r in
  res <~ call (CListStateStats query) (dbq.ListStateStats d query) ;;
  let '(states, page, total) := res in
  let response := pagedResponse "states" states page total in
  lift (api.respond w "Failed to marshal states"
          (json.MarshalMap dbq.Marshal response)).

(** GetLineageActivity returns the activity (version history) of a
    Lineage. *)
Definition GetLineageActivity (w : ResponseWriter) (r : FullRequest) (d : D)
    : Handler unit :=
  let params := Vars r in
  activity <~ call (CGetLineageActivity (index params "lineage"))
                (dbq.GetLineageActivity d (index params "lineage")) ;;
  lift (api.respond w "Failed to marshal state activity" (dbq.Marshal activity)).

(** SearchAttribute performs a search on Resource Attributes by various
    parameters. *)
Definition SearchAttribute (w : ResponseWriter) (r : FullRequest) (d : D)
    : Handler unit :=
  let query := Query r in
  res <~ call (CSearchAttribute query) (dbq.SearchAttribute d query) ;;
  let '(result, page, total) := res in
  let response := pagedResponse "results" result page total in
  lift (api.respond w "Failed to marshal json"
          (json.MarshalMap dbq.Marshal response)).

(** ListResourceTypes lists all Resource types. *)
Definition ListResourceTypes (w : ResponseWriter) (d : D) : Handler unit :=
  res <~ call CListResourceTypes (dbq.ListResourceTypes d) ;;
  let '(result, _) := res in
  lift (api.respond w "Failed to marshal json" (dbq.Marshal result)).

(** ListResourceTypesWithCount lists all Resource types with their
    associated count. *)
Definition ListResourceTypesWithCount (w : ResponseWriter) (d : D)
    : Handler unit :=
  res <~ call CListResourceTypesWithCount (dbq.ListResourceTypesWithCount d) ;;
  let '(result, _) := res in
  lift (api.respond w "Failed to marshal json" (dbq.Marshal result)).

(** ListResourceNames lists all Resource names. *)
Definition ListResourceNames (w : ResponseWriter) (d : D) : Handler unit :=
  res <~ call CListResourceNames (dbq.ListResourceNames d) ;;
  let '(result, _) := res in
  lift (api.respond w "Failed to marshal json" (dbq.Marshal result)).

(** ListAttributeKeys lists all Resource Attribute Keys, optionally
    filtered by resource_type. *)
Definition ListAttributeKeys (w : ResponseWriter) (r : FullRequest) (d : D)
    : Handler unit :=
  let resourceType := Get (Query r) "resource_type" in
  res <~ call (CListAttributeKeys resourceType)
           (dbq.ListAttributeKeys d resourceType) ;;
  let '(result, _) := res in
  lift (api.respond w "Failed to marshal json" (dbq.Marshal result)).

(** ListTfVersions lists all Terraform versions. *)
Definition ListTfVersions (w : ResponseWriter) (d : D) : Handler unit :=
  res <~ call CListTfVersions (dbq.ListTfVersions d) ;;
  let '(result, _) := res in
  lift (api.respond w "Failed to marshal json" (dbq.Marshal result)).

(** GetUser returns information about the logged user. *)
Definition GetUser (w : ResponseWriter) (r : FullRequest) : Handler unit :=
  let name := Get (Header r) "X-Forwarded-User" in
  let email := Get (Header r) "X-Forwarded-Email" in
  user <~ call (CUserInfo name email) (dbq.UserInfo name email) ;;
  lift (api.respond w "Failed to marshal user information" (dbq.Marshal user)).

(** The tail of the plan handlers: as [api.respond], with the marshalling
    error logged first. *)
Definition respondLogged (w : ResponseWriter) (failure : string)
    (res : GoResult json.t) : Handler unit :=
  let '(j, err) := res in
  match err with
  | Some _ =>
      Errorf (failure +:+ ": ") err ;;;
      lift (api.JSONError w failure err)
  | None => lift (api.writeString w j)
  end.

(** SubmitPlan inserts a new Terraform plan in the database. *)
Definition SubmitPlan (w : ResponseWriter) (r : FullRequest) (d : D)
    : Handler unit :=
  res <~ call CReadAll (Body r) ;;
  let '(body, err) := res in
  match err with
  | Some _ =>
      Errorf "Failed to read body: " err ;;;
      lift (api.JSONError w "Failed to read body during plan submit" err)
  | None =>
      err <~ call (CInsertPlan body) (dbq.InsertPlan d body) ;;
      match err with
      | Some _ =>
          Errorf "Failed to insert plan to db: " err ;;;
          lift (api.JSONError w "Failed to insert plan to db" err)
      | None => ret tt
      end
  end.

(** GetPlansSummary provides summary of all Plan by lineage. *)
Definition GetPlansSummary (w : ResponseWriter) (r : FullRequest) (d : D)
    : Handler unit :=
  let lineage := Get (Query r) "lineage" in
  let limit := Get (Query r) "limit" in
  let page := Get (Query r) "page" in
  res <~ call (CGetPlansSummary lineage limit page)
           (dbq.GetPlansSummary d lineage limit page) ;;
  let '(plans, currentPage, total) := res in
  let response := pagedResponse "plans" plans currentPage total in
  respondLogged w "Failed to marshal plans"
    (json.MarshalMap dbq.Marshal response).

(** GetPlan provides a specific Plan of a lineage using ID. *)
Definition GetPlan (w : ResponseWriter) (r : FullRequest) (d : D)
    : Handler unit :=
  let id := Get (Query r) "planid" in
  plan <~ call (CGetPlan id) (dbq.GetPlan d id) ;;
  respondLogged w "Failed to marshal plan" (dbq.Marshal plan).

(** GetPlans provides all Plan by lineage. *)
Definition GetPlans (w : ResponseWriter) (r : FullRequest) (d : D)
    : Handler unit :=
  let lineage := Get (Query r) "lineage" in
  let limit := Get (Query r) "limit" in
  let page := Get (Query r) "page" in
  res <~ call (CGetPlans lineage limit page)
           (dbq.GetPlans d lineage limit page) ;;
  let '(plans, currentPage, total) := res in
  let response := pagedResponse "plans" plans currentPage total in
  respondLogged w "Failed to marshal plans"
    (json.MarshalMap dbq.Marshal response).

(** ManagePlans is used to route the request to the appropriated handler
    function on /api/plans request. *)
Definition ManagePlans (w : ResponseWriter) (r : FullRequest) (d : D)
    : Handler unit :=
  if decide (Method r = "GET") then
    if decide (Get (Query r) "planid" <> "") then GetPlan w r d
    else GetPlans w r d
  else if decide (Method r = "POST") then SubmitPlan w r d
  else emit (EvHttpError "Invalid request method." 405).

(** GetLineages recover all Lineage from db. *)
Definition GetLineages (w : ResponseWriter) (r : FullRequest) (d : D)
    : Handler unit :=
  let limit := Get (Query r) "limit" in
  lineages <~ call (CGetLineages limit) (dbq.GetLineages d limit) ;;
  respondLogged w "Failed to marshal lineages" (dbq.Marshal lineages).

(** ** Reading the trace of these handlers *)

(** The documents handed to [io.WriteString], in order. *)
Definition docs (t : list Event) : list json.t :=
  omap (fun e => match e with Ev (api.EvWrite doc) => Some doc | _ => None end) t.

(** The calls made to the collaborators, in order. *)
Definition calls (t : list Event) : list Call :=
  omap (fun e => match e with EvCall c => Some c | _ => None end) t.

(** The lines logged at error level, in order. *)
Definition logged (t : list Event) : list string :=
  omap (fun e => match e with Ev (api.EvLogError msg) => Some msg | _ => None end) t.

End Handlers.

End handlers.

(** ** A canned database for the remaining handlers *)

Module canned.

(** Values that are already JSON documents, or that cannot be encoded. *)
#[local] Instance values : dbq.Values := {|
  dbq.Any := GoResult json.t;
  dbq.Marshal := fun v => v;
  dbq.UserInfo := fun name email =>
    (json.JObject [("name", json.JString name); ("email", json.JString email)],
     None)
|}.

Definition num (n : Z) : GoResult json.t := (json.JNumber n, None).
Definition rows (l : list string) : GoResult json.t :=
  (json.JArray (json.JString <$> l), None).

(** A database that answers every query with the same rows and reports the
    error it is given, if any; a plan read while it is in error cannot be
    encoded. *)
#[local] Instance database : dbq.Queries (option error) := {|
  dbq.ListTerraformVersionsWithCount := fun d _ => (rows ["1.5.0"], d);
  dbq.ListStateStats := fun d _ => (rows ["prod/vpc"], num 1, num 1);
  dbq.GetLineageActivity := fun d lin => rows [lin];
  dbq.SearchAttribute := fun d _ => (rows ["cidr_block"], num 1, num 1);
  dbq.ListResourceTypes := fun d => (rows ["aws_vpc"], d);
  dbq.ListResourceTypesWithCount := fun d => (rows ["aws_vpc"], d);
  dbq.ListResourceNames := fun d => (rows ["main"], d);
  dbq.ListAttributeKeys := fun d rt => (rows [rt], d);
  dbq.ListTfVersions := fun d => (rows ["1.5.0"], d);
  dbq.InsertPlan := fun d _ => d;
  dbq.GetPlansSummary := fun d lin _ _ => (rows [lin], num 1, num 1);
  dbq.GetPlan := fun d id =>
    match d with Some e => (json.JNull, Some e) | None => rows [id] end;
  dbq.GetPlans := fun d lin _ _ => (rows [lin], num 1, num 1);
  dbq.GetLineages := fun d _ => rows ["prod/vpc"]
|}.

Definition down : error := mkError OtherError "connection refused".

(** States that are either a payload or unreadable; two states can be
    compared only when both are readable, and a lock whose timestamp is
    negative cannot be encoded. *)
Definition incomparable : error :=
  mkError IncomparableSnapshotError "cannot compare an unreadable state".
Definition badTime : error :=
  mkError OtherError "Time.MarshalJSON: year outside of range [0,9999]".

#[local] Instance types : db.Types := {|
  db.State := option string;
  db.Comparison := bool;
  db.Compare := fun a b =>
    match a, b with
    | Some x, Some y => (bool_decide (x = y), None)
    | _, _ => (false, Some incomparable)
    end;
  db.marshal_State := fun s =>
    (match s with Some x => json.JString x | None => json.JNull end, None);
  db.marshal_Comparison := fun c => (json.JBool c, None);
  db.marshal_LockInfo := fun l =>
    if decide (state.Created l < 0)%Z then (json.JNull, Some badTime)
    else example.marshalLockInfo l
|}.

(** A database that knows one version, "v1", of every lineage, holds no
    state under the empty version identifier, and reports the error it is
    given, if any, when asked for a default version. *)
#[local] Instance states : db.Database (option error) := {|
  db.DefaultVersion := fun d lin => ("v1", d);
  db.GetState := fun d lin vid =>
    if decide (vid = "") then None else Some (lin +:+ "@" +:+ vid)
|}.

Definition undated : state.LockInfo :=
  state.mkLockInfo "carol" (-1) "OperationTypeApply" "prod/db".
Definition carol : state.LockInfo :=
  state.mkLockInfo "carol" 1700000900 "OperationTypeApply" "prod/db".

(** A provider holding the lock [l] on the lineage [k], and nothing else. *)
Definition lockedAt (k : string) (l : state.LockInfo) : state.Provider :=
  state.mkProvider ({[ k := l ]}, None).

Definition fullRequest (method : string) (q : list (string * list string))
    (body : GoResult string) : FullRequest :=
  mkFullRequest (mkRequest ∅ (list_to_map q)) method ∅ body.

End canned.

(** * Properties of the handlers *)

Import json api obs.

(** ** The handler monad and [JSONError] *)

Section HandlerFacts.
Context `{db.Types}.

Lemma bind_trace {A B : Type} (m : Handler A) (k : A -> Handler B) :
  trace (bind m k) = trace m ++ trace (k m.1).
Proof. destruct m as [a t1]. unfold bind, trace. simpl. by destruct (k a). Qed.

Lemma bind_value {A B : Type} (m : Handler A) (k : A -> Handler B) :
  (bind m k).1 = (k m.1).1.
Proof. destruct m as [a t1]. unfold bind. simpl. by destruct (k a). Qed.

Lemma JSONError_eq (w : ResponseWriter) (message : string) (err : option error) :
  JSONError w message err = writeString w (errorDoc message (Sprintf_v err)).
Proof. unfold JSONError. vm_compute. reflexivity. Qed.

Lemma writeString_trace (w : ResponseWriter) (doc : json.t) :
  trace (writeString w doc) =
  EvWrite doc :: match WriteString w doc with
                 | Some e => [EvLogError (Error e)]
                 | None => []
                 end.
Proof. unfold writeString. rewrite bind_trace. simpl. by destruct (WriteString w doc). Qed.

Lemma writeString_written (w : ResponseWriter) (doc : json.t) :
  written (trace (writeString w doc)) = [doc].
Proof. rewrite writeString_trace. simpl. by destruct (WriteString w doc). Qed.

Lemma written_app (t1 t2 : list Event) :
  written (t1 ++ t2) = written t1 ++ written t2.
Proof. apply omap_app. Qed.

Lemma written_calls (sps : list state.Provider) :
  written (EvGetLocks <$> sps) = [].
Proof. induction sps; [done | simpl; auto]. Qed.

Lemma providersCalled_calls (sps : list state.Provider) :
  providersCalled (EvGetLocks <$> sps) = sps.
Proof. induction sps; [done | simpl; by f_equal]. Qed.

Lemma providersCalled_writeString (w : ResponseWriter) (doc : json.t) :
  providersCalled (trace (writeString w doc)) = [].
Proof. rewrite writeString_trace. simpl. by destruct (WriteString w doc). Qed.

Lemma errorDoc_members (message details : string) (k : string) (j : json.t) :
  (k, j) ∈ members (errorDoc message details) -> k = "details" \/ k = "error".
Proof.
  simpl. rewrite !elem_of_cons, elem_of_nil.
  intros [E | [E | []]]; inversion E; auto.
Qed.

End HandlerFacts.

(** ** Lock aggregation: [GetLocks] *)

Section LockAggregation.
Context `{db.Types}.

Implicit Types (sp : state.Provider) (sps : list state.Provider).
Implicit Types (acc allLocks : gmap string state.LockInfo).

(** The inner loop overwrites the accumulated mapping with the provider's
    report, whatever order the range loop visits the keys in. *)
Lemma mergeLocks_union (locks acc : gmap string state.LockInfo) :
  mergeLocks locks acc = locks ∪ acc.
Proof.
  unfold mergeLocks.
  apply (map_fold_weak_ind (fun r m => r = m ∪ acc)).
  - by rewrite (left_id_L ∅ (∪)).
  - intros k v m r _ ->. by rewrite insert_union_l.
Qed.

Lemma mergeLocks_lookup_reported locks acc k v :
  locks !! k = Some v -> mergeLocks locks acc !! k = Some v.
Proof. intros Hk. rewrite mergeLocks_union. by apply lookup_union_Some_l. Qed.

Lemma mergeLocks_lookup_unreported locks acc k :
  locks !! k = None -> mergeLocks locks acc !! k = acc !! k.
Proof. intros Hk. rewrite mergeLocks_union. by apply lookup_union_r. Qed.

Lemma collectLocks_all_succeed w sps acc :
  Forall succeeds sps ->
  collectLocks w sps acc = (Some (merged sps acc), EvGetLocks <$> sps).
Proof.
  intros Hok. revert acc.
  induction Hok as [| sp sps Hsp _ IH]; intros acc; [done |].
  unfold succeeds in Hsp. simpl.
  unfold call_GetLocks, bind, emit, ret. simpl.
  destruct (state.GetLocks sp) as [locks err] eqn:E. simpl in Hsp. subst err.
  rewrite IH. unfold locksOf. by rewrite E.
Qed.

Lemma collectLocks_first_failure w pre sp post acc e :
  Forall succeeds pre ->
  (state.GetLocks sp).2 = Some e ->
  collectLocks w (pre ++ sp :: post) acc =
  (None, (EvGetLocks <$> pre ++ [sp]) ++
         trace (writeString w
                  (errorDoc "Failed to get locks on a provider" (Error e)))).
Proof.
  intros Hok Hsp. revert acc.
  induction Hok as [| p pre Hp _ IH]; intros acc.
  - simpl. unfold call_GetLocks, bind, emit, ret. simpl.
    destruct (state.GetLocks sp) as [locks err]. simpl in Hsp. subst err.
    rewrite JSONError_eq. simpl.
    destruct (writeString w _) as [[] t]. simpl. by rewrite app_nil_r.
  - unfold succeeds in Hp. simpl.
    unfold call_GetLocks, bind, emit, ret. simpl.
    destruct (state.GetLocks p) as [locks err]. simpl in Hp. subst err.
    by rewrite IH.
Qed.

Lemma merged_app sps1 sps2 acc :
  merged (sps1 ++ sps2) acc = merged sps2 (merged sps1 acc).
Proof. apply foldl_app. Qed.

Lemma merged_lookup_unreported sps acc k :
  Forall (fun sp => locksOf sp !! k = None) sps ->
  merged sps acc !! k = acc !! k.
Proof.
  intros Hno. revert acc.
  induction Hno as [| sp sps Hsp _ IH]; intros acc; [done |].
  simpl. rewrite IH. by apply mergeLocks_lookup_unreported.
Qed.

(** The value under a key is the report of the last provider that has
    one. *)
Lemma merged_lookup_last pre sp post acc k v :
  locksOf sp !! k = Some v ->
  Forall (fun sp' => locksOf sp' !! k = None) post ->
  merged (pre ++ sp :: post) acc !! k = Some v.
Proof.
  intros Hk Hpost. rewrite merged_app. simpl.
  rewrite merged_lookup_unreported by done.
  by apply mergeLocks_lookup_reported.
Qed.

Lemma merged_lookup_reported sps acc sp k v :
  sp ∈ sps -> locksOf sp !! k = Some v -> is_Some (merged sps acc !! k).
Proof.
  intros Hin Hk. revert acc.
  induction sps as [| p sps IH] using rev_ind; intros acc.
  - by apply elem_of_nil in Hin.
  - rewrite merged_app. simpl.
    destruct (locksOf p !! k) as [u |] eqn:Hp.
    + exists u. by apply mergeLocks_lookup_reported.
    + rewrite mergeLocks_lookup_unreported by done.
      apply IH. apply elem_of_app in Hin as [Hin | Hin]; [done |].
      apply list_elem_of_singleton in Hin. subst p. congruence.
Qed.

(** A mapping holds one entry per key. *)
Lemma entriesUnder_one allLocks k v :
  allLocks !! k = Some v -> entriesUnder k allLocks = [(k, v)].
Proof.
  intros Hk. unfold entriesUnder.
  apply Permutation_singleton_r.
  rewrite <- (map_to_list_delete _ _ _ Hk).
  rewrite filter_cons_True by done.
  replace (filter _ (map_to_list (delete k allLocks))) with
    (@nil (string * state.LockInfo)); [done |].
  symmetry. apply elem_of_nil_inv. intros [k' v'] Hf.
  apply list_elem_of_filter in Hf as [Heq Hf]. simpl in Heq. subst k'.
  apply elem_of_map_to_list in Hf. by rewrite lookup_delete_eq in Hf.
Qed.

(** What a successful [Marshal] of a map emits for each entry. *)
Lemma marshalMembers_ok {V : Type} (enc : V -> GoResult json.t)
    (kvs : list (string * V)) (ms : list (string * json.t)) :
  marshalMembers enc kvs = (ms, None) ->
  Forall2 (fun kv m => m.1 = kv.1 /\ enc kv.2 = (m.2, None)) kvs ms.
Proof.
  revert ms. induction kvs as [| [k v] kvs IH]; intros ms Hm; simpl in Hm.
  - inversion Hm. constructor.
  - destruct (enc v) as [j [e |]] eqn:Ev; [done |].
    destruct (marshalMembers enc kvs) as [js [e |]]; [done |].
    inversion Hm. subst ms. constructor; [by simpl | by apply IH].
Qed.

Lemma Forall2_filter_names {V : Type} (enc : V -> GoResult json.t) (k : string)
    (kvs : list (string * V)) (ms : list (string * json.t)) :
  Forall2 (fun kv m => m.1 = kv.1 /\ enc kv.2 = (m.2, None)) kvs ms ->
  Forall2 (fun kv m => m.1 = kv.1 /\ enc kv.2 = (m.2, None))
    (filter (fun kv => kv.1 = k) kvs) (filter (fun m => m.1 = k) ms).
Proof.
  induction 1 as [| kv m kvs ms [Hname Henc] _ IH]; [constructor |].
  rewrite !filter_cons. rewrite Hname.
  destruct (decide (kv.1 = k)); [constructor |]; done.
Qed.

(** A marshalled lock mapping has exactly one member for a key of the
    mapping: the encoding of the value under that key. *)
Lemma MarshalMap_member allLocks k v doc :
  allLocks !! k = Some v ->
  MarshalMap db.marshal_LockInfo allLocks = (doc, None) ->
  exists j, db.marshal_LockInfo v = (j, None) /\ membersNamed k doc = [(k, j)].
Proof.
  intros Hk Hdoc. unfold MarshalMap in Hdoc.
  destruct (marshalMembers _ _) as [ms [e |]] eqn:Hms; [done |].
  inversion Hdoc. subst doc. clear Hdoc.
  apply marshalMembers_ok in Hms.
  apply (Forall2_filter_names _ k) in Hms.
  assert (Hsorted : filter (fun kv => kv.1 = k) (sortedEntries allLocks) = [(k, v)]).
  { apply Permutation_singleton_r. unfold sortedEntries.
    rewrite merge_sort_Permutation.
    by rewrite <- (entriesUnder_one allLocks k v Hk). }
  rewrite Hsorted in Hms. unfold membersNamed. simpl.
  inversion Hms as [| ? [k' j] ? ms' [Hname Henc] Hrest]. subst.
  inversion Hrest. subst. simpl in *. subst k'. by exists j.
Qed.

Lemma GetLocks_all_succeed w sps :
  Forall succeeds sps ->
  trace (GetLocks w sps) =
  (EvGetLocks <$> sps) ++
  trace (respond w "Failed to marshal locks"
           (MarshalMap db.marshal_LockInfo (merged sps ∅))).
Proof.
  intros Hok. unfold GetLocks. rewrite bind_trace.
  by rewrite collectLocks_all_succeed.
Qed.

(** C1 (as amended): when a provider's [GetLocks] fails, the aggregation
    stops at the first failing provider: the providers after it are not
    called, and the only document written is the error object carrying the
    text of that provider's error under the message "Failed to get locks on
    a provider".  No lock collected from the earlier providers is part of
    the output. *)
Theorem GetLocks_first_failure_aborts w pre sp post e :
  Forall succeeds pre ->
  (state.GetLocks sp).2 = Some e ->
  trace (GetLocks w (pre ++ sp :: post)) =
    (EvGetLocks <$> pre ++ [sp]) ++
    trace (writeString w
             (errorDoc "Failed to get locks on a provider" (Error e))) /\
  providersCalled (trace (GetLocks w (pre ++ sp :: post))) = pre ++ [sp] /\
  written (trace (GetLocks w (pre ++ sp :: post))) =
    [errorDoc "Failed to get locks on a provider" (Error e)] /\
  (forall k, k <> "details" -> k <> "error" ->
     ¬ reportsKey (trace (GetLocks w (pre ++ sp :: post))) k).
Proof.
  intros Hok Hsp.
  assert (Ht : trace (GetLocks w (pre ++ sp :: post)) =
    (EvGetLocks <$> pre ++ [sp]) ++
    trace (writeString w
             (errorDoc "Failed to get locks on a provider" (Error e)))).
  { unfold GetLocks. rewrite bind_trace.
    rewrite (collectLocks_first_failure w pre sp post ∅ e Hok Hsp).
    simpl. by rewrite app_nil_r. }
  assert (Hw : written (trace (GetLocks w (pre ++ sp :: post))) =
    [errorDoc "Failed to get locks on a provider" (Error e)]).
  { rewrite Ht, written_app, written_calls, writeString_written. done. }
  split; [done |]. split; [| split; [done |]].
  - rewrite Ht. unfold providersCalled at 1. rewrite omap_app.
    fold (providersCalled (EvGetLocks <$> pre ++ [sp])).
    fold (providersCalled (trace (writeString w
      (errorDoc "Failed to get locks on a provider" (Error e))))).
    rewrite providersCalled_calls, providersCalled_writeString.
    by rewrite app_nil_r.
  - intros k Hd He (doc & j & Hdoc & Hmem). rewrite Hw in Hdoc.
    apply list_elem_of_singleton in Hdoc. subst doc.
    apply errorDoc_members in Hmem as [? | ?]; done.
Qed.

(** C2: when every provider answers and two of them report a lock for the
    same lineage key with different holders, the aggregated mapping holds
    under that key the report of the later provider (the last one that has
    the key), the earlier report is not the value under the key, and the
    document written has one member for the key: the later report. *)
Theorem GetLocks_last_provider_wins w pre p mid q post k v1 v2 :
  Forall succeeds (pre ++ p :: mid ++ q :: post) ->
  locksOf p !! k = Some v1 ->
  locksOf q !! k = Some v2 ->
  state.Who v1 <> state.Who v2 ->
  Forall (fun sp => locksOf sp !! k = None) post ->
  exists allLocks,
    (collectLocks w (pre ++ p :: mid ++ q :: post) ∅).1 = Some allLocks /\
    allLocks !! k = Some v2 /\
    allLocks !! k <> Some v1 /\
    entriesUnder k allLocks = [(k, v2)] /\
    trace (GetLocks w (pre ++ p :: mid ++ q :: post)) =
      (EvGetLocks <$> pre ++ p :: mid ++ q :: post) ++
      trace (respond w "Failed to marshal locks"
               (MarshalMap db.marshal_LockInfo allLocks)) /\
    (forall doc, MarshalMap db.marshal_LockInfo allLocks = (doc, None) ->
       exists j, db.marshal_LockInfo v2 = (j, None) /\
                 membersNamed k doc = [(k, j)]).
Proof.
  intros Hok Hp Hq Hwho Hpost.
  exists (merged (pre ++ p :: mid ++ q :: post) ∅).
  assert (Hk : merged (pre ++ p :: mid ++ q :: post) ∅ !! k = Some v2).
  { replace (pre ++ p :: mid ++ q :: post)
      with ((pre ++ p :: mid) ++ q :: post) by by rewrite <- app_assoc.
    by apply merged_lookup_last. }
  split; [by rewrite collectLocks_all_succeed |].
  split; [done |]. split; [| split; [| split]].
  - rewrite Hk. intros [= ->]. done.
  - by apply entriesUnder_one.
  - by apply GetLocks_all_succeed.
  - intros doc Hdoc. exact (MarshalMap_member _ k v2 doc Hk Hdoc).
Qed.

(** C6: when every provider answers and two of them report a lock for the
    same lineage key with the same holder and timestamp, the aggregated
    mapping holds exactly one entry under that key, and so does the
    document written. *)
Theorem GetLocks_same_lock_one_entry w sps i j p q k v1 v2 :
  Forall succeeds sps ->
  sps !! i = Some p ->
  sps !! j = Some q ->
  i <> j ->
  locksOf p !! k = Some v1 ->
  locksOf q !! k = Some v2 ->
  state.Who v1 = state.Who v2 ->
  state.Created v1 = state.Created v2 ->
  exists allLocks,
    (collectLocks w sps ∅).1 = Some allLocks /\
    length (entriesUnder k allLocks) = 1 /\
    trace (GetLocks w sps) =
      (EvGetLocks <$> sps) ++
      trace (respond w "Failed to marshal locks"
               (MarshalMap db.marshal_LockInfo allLocks)) /\
    (forall doc, MarshalMap db.marshal_LockInfo allLocks = (doc, None) ->
       length (membersNamed k doc) = 1).
Proof.
  intros Hok Hi Hj _ Hp Hq _ _.
  exists (merged sps ∅).
  destruct (merged_lookup_reported sps ∅ p k v1) as [v Hv];
    [by eapply list_elem_of_lookup_2 | done |].
  split; [by rewrite collectLocks_all_succeed |]. split; [| split].
  - by rewrite (entriesUnder_one _ k v).
  - by apply GetLocks_all_succeed.
  - intros doc Hdoc.
    destruct (MarshalMap_member _ k v doc Hv Hdoc) as (j' & _ & ->). done.
Qed.

(** C9: with no provider, [GetLocks] writes the empty JSON object and
    nothing else; the document written is not an error response. *)
Theorem GetLocks_no_providers w :
  trace (GetLocks w []) = trace (writeString w (JObject [])) /\
  written (trace (GetLocks w [])) = [JObject []] /\
  (forall doc, doc ∈ written (trace (GetLocks w [])) -> ¬ isErrorDoc doc).
Proof.
  assert (Ht : trace (GetLocks w []) = trace (writeString w (JObject []))).
  { unfold GetLocks. rewrite bind_trace. simpl.
    unfold MarshalMap, sortedEntries. rewrite map_to_list_empty. done. }
  assert (Hw : written (trace (GetLocks w [])) = [JObject []])
    by by rewrite Ht, writeString_written.
  split; [done |]. split; [done |].
  intros doc Hdoc. rewrite Hw in Hdoc.
  apply list_elem_of_singleton in Hdoc. subst doc.
  intros (message & details & Heq). discriminate Heq.
Qed.

End LockAggregation.

(** ** Version resolution: [GetState] and [StateCompare] *)

Section VersionResolution.
Context `{db.Types} {D : Type} `{!db.Database D}.

Lemma GetState_trace_default (w : ResponseWriter) (r : Request) (d : D) :
  Get (Query r) "versionid" = "" ->
  trace (GetState w r d) =
  EvDefaultVersion (index (Vars r) "lineage") ::
  match db.DefaultVersion d (index (Vars r) "lineage") with
  | (_, Some e) =>
      trace (JSONError w "Failed to retrieve default version" (Some e))
  | (versionID, None) =>
      EvGetState (index (Vars r) "lineage") versionID ::
      trace (respond w "Failed to marshal state"
               (db.marshal_State
                  (db.GetState d (index (Vars r) "lineage") versionID)))
  end.
Proof.
  intros Hq. unfold GetState. rewrite Hq.
  destruct (decide ("" = "")) as [_ | []]; [| done].
  unfold call_DefaultVersion, call_GetState.
  rewrite !bind_trace, !bind_value. simpl.
  destruct (db.DefaultVersion d (index (Vars r) "lineage")) as [v [e |]].
  - rewrite !bind_trace, !bind_value. simpl. by rewrite !app_nil_r.
  - simpl. rewrite !bind_trace, !bind_value. simpl. done.
Qed.

Lemma GetState_trace_explicit (w : ResponseWriter) (r : Request) (d : D) :
  Get (Query r) "versionid" <> "" ->
  trace (GetState w r d) =
  EvGetState (index (Vars r) "lineage") (Get (Query r) "versionid") ::
  trace (respond w "Failed to marshal state"
           (db.marshal_State
              (db.GetState d (index (Vars r) "lineage")
                 (Get (Query r) "versionid")))).
Proof.
  intros Hq. unfold GetState.
  destruct (decide (Get (Query r) "versionid" = "")) as [? | _]; [done |].
  unfold call_GetState. rewrite !bind_trace, ?bind_value. simpl.
  rewrite ?bind_trace, ?bind_value. simpl. done.
Qed.

Lemma respond_trace_no_calls (w : ResponseWriter) (failure : string)
    (res : GoResult json.t) :
  statesLoaded (trace (respond w failure res)) = [] /\
  defaultsAsked (trace (respond w failure res)) = [].
Proof.
  destruct res as [j [e |]]; simpl.
  - rewrite JSONError_eq, writeString_trace. simpl.
    by destruct (WriteString w _).
  - rewrite writeString_trace. simpl. by destruct (WriteString w _).
Qed.

(** C3: when the [versionid] query parameter is empty, [GetState] asks the
    database for the default version of the requested lineage, and when
    that succeeds it loads the state of that lineage under the version
    returned and responds with it. *)
Theorem GetState_empty_version_uses_default (w : ResponseWriter) (r : Request)
    (d : D) :
  Get (Query r) "versionid" = "" ->
  defaultsAsked (trace (GetState w r d)) = [index (Vars r) "lineage"] /\
  forall versionID,
    db.DefaultVersion d (index (Vars r) "lineage") = (versionID, None) ->
    trace (GetState w r d) =
      EvDefaultVersion (index (Vars r) "lineage") ::
      EvGetState (index (Vars r) "lineage") versionID ::
      trace (respond w "Failed to marshal state"
               (db.marshal_State
                  (db.GetState d (index (Vars r) "lineage") versionID))) /\
    statesLoaded (trace (GetState w r d)) =
      [(index (Vars r) "lineage", versionID)].
Proof.
  intros Hq. rewrite (GetState_trace_default w r d Hq). split.
  - destruct (db.DefaultVersion d _) as [v [e |]]; simpl.
    + rewrite JSONError_eq, writeString_trace. simpl.
      by destruct (WriteString w _).
    + by rewrite (proj2 (respond_trace_no_calls _ _ _)).
  - intros v ->. split; [done |]. simpl.
    by rewrite (proj1 (respond_trace_no_calls _ _ _)).
Qed.

(** C4 (as amended): when the request supplies a non-empty version
    identifier, [GetState] passes it unchanged to the database together
    with the requested lineage, without asking for the default version and
    without any validation step; the response is built from whatever state
    the database returns for that pair. *)
Theorem GetState_explicit_version_unchecked (w : ResponseWriter) (r : Request)
    (d : D) :
  Get (Query r) "versionid" <> "" ->
  trace (GetState w r d) =
    EvGetState (index (Vars r) "lineage") (Get (Query r) "versionid") ::
    trace (respond w "Failed to marshal state"
             (db.marshal_State
                (db.GetState d (index (Vars r) "lineage")
                   (Get (Query r) "versionid")))) /\
  defaultsAsked (trace (GetState w r d)) = [] /\
  statesLoaded (trace (GetState w r d)) =
    [(index (Vars r) "lineage", Get (Query r) "versionid")].
Proof.
  intros Hq. rewrite (GetState_trace_explicit w r d Hq).
  split; [done |]. simpl.
  destruct (respond_trace_no_calls w "Failed to marshal state"
    (db.marshal_State (db.GetState d (index (Vars r) "lineage")
       (Get (Query r) "versionid")))) as [-> ->].
  done.
Qed.

(** C10: [StateCompare] loads both snapshots with the single lineage route
    parameter of the request, and these two snapshots are the arguments of
    [Compare]. *)
Theorem StateCompare_same_lineage (w : ResponseWriter) (r : Request) (d : D) :
  exists rest,
    trace (StateCompare w r d) =
      EvGetState (index (Vars r) "lineage") (Get (Query r) "from") ::
      EvGetState (index (Vars r) "lineage") (Get (Query r) "to") ::
      EvCompare
        (db.GetState d (index (Vars r) "lineage") (Get (Query r) "from"))
        (db.GetState d (index (Vars r) "lineage") (Get (Query r) "to")) ::
      rest /\
    statesLoaded (trace (StateCompare w r d)) =
      [(index (Vars r) "lineage", Get (Query r) "from");
       (index (Vars r) "lineage", Get (Query r) "to")].
Proof.
  unfold StateCompare, call_GetState, call_Compare.
  rewrite !bind_trace, !bind_value. simpl.
  set (from := db.GetState d _ (Get (Query r) "from")).
  set (to := db.GetState d _ (Get (Query r) "to")).
  eexists. split; [reflexivity |].
  destruct (db.Compare from to) as [c [e |]]; simpl.
  - rewrite JSONError_eq, writeString_trace. simpl.
    by destruct (WriteString w _).
  - by rewrite (proj1 (respond_trace_no_calls _ _ _)).
Qed.

End VersionResolution.

(** ** [GetState] over the Lineage Registry *)

Section RegistryResolution.
Context `{db.Types} (zero : db.State).

Lemma DefaultVersion_no_versions (reg : registry.Registry) (lin : string) :
  Forall (fun v => registry.lineage v <> lin) reg ->
  registry.DefaultVersion reg lin = ("", Some (registry.unknownLineage lin)).
Proof.
  intros Hno. unfold registry.DefaultVersion, registry.versionsOf.
  replace (filter _ reg) with (@nil registry.Version); [done |].
  symmetry. apply elem_of_nil_inv. intros v Hv.
  apply list_elem_of_filter in Hv as [Hl Hv].
  rewrite Forall_forall in Hno. by apply (Hno v).
Qed.

(** C5: for a lineage with no recorded version, a [GetState] request
    without a version identifier fails with [UnknownLineageError]: the
    default-version lookup returns that error, the error response is the
    only document written and no state is loaded. *)
Theorem GetState_unknown_lineage (w : ResponseWriter) (r : Request)
    (reg : registry.Registry) :
  Get (Query r) "versionid" = "" ->
  Forall (fun v => registry.lineage v <> index (Vars r) "lineage") reg ->
  exists e,
    (db.DefaultVersion (Database := registry.database zero) reg
       (index (Vars r) "lineage")).2 = Some e /\
    err_kind e = UnknownLineageError /\
    trace (GetState (H0 := registry.database zero) w r reg) =
      EvDefaultVersion (index (Vars r) "lineage") ::
      trace (writeString w
               (errorDoc "Failed to retrieve default version" (Error e))) /\
    written (trace (GetState (H0 := registry.database zero) w r reg)) =
      [errorDoc "Failed to retrieve default version" (Error e)] /\
    statesLoaded (trace (GetState (H0 := registry.database zero) w r reg)) = [].
Proof.
  intros Hq Hno. exists (registry.unknownLineage (index (Vars r) "lineage")).
  assert (Hd : db.DefaultVersion (Database := registry.database zero) reg
                 (index (Vars r) "lineage") =
               ("", Some (registry.unknownLineage (index (Vars r) "lineage"))))
    by by apply DefaultVersion_no_versions.
  rewrite (GetState_trace_default w r reg Hq), Hd, JSONError_eq.
  split; [done |]. split; [done |]. split; [done |].
  rewrite writeString_trace. simpl.
  by destruct (WriteString w _).
Qed.

End RegistryResolution.

(** ** The Diff Engine: order of the entries *)

Import compare.

#[local] Instance string_lexico_po : StrictOrder (@lexico string _).
Proof. unfold lexico, string_lexico. apply _. Qed.

#[local] Instance string_lexico_trichotomy : TrichotomyT (@lexico string _).
Proof.
  intros s1 s2. unfold lexico, string_lexico.
  destruct (decide (s1 = s2)) as [-> | Hne]; [by left; right |].
  destruct (decide (String.le s1 s2)) as [Hle | Hnle].
  - left; left. split; [done |]. intros Hge. by apply Hne, (anti_symm String.le).
  - right. by destruct (total String.le s1 s2) as [? | ?].
Qed.

Section DiffOrder.
Context {Value : Type} `{EqDecision Value}.

Implicit Types e : ChangeEntry (Value := Value).

#[local] Instance entry_le_total : Total (entry_le (Value := Value)).
Proof.
  intros e1 e2. unfold entry_le.
  destruct (trichotomy lexico (entry_key e1) (entry_key e2)) as [Hlt | [Heq | Hgt]].
  - left. intros Hgt. by apply (strict_anti_symm (R := lexico) _ _ Hlt).
  - left. rewrite Heq. apply (irreflexivity lexico).
  - right. intros Hlt. by apply (strict_anti_symm (R := lexico) _ _ Hlt).
Qed.

#[local] Instance entry_le_trans : Transitive (entry_le (Value := Value)).
Proof.
  intros e1 e2 e3. unfold entry_le. intros H12 H23 H31.
  destruct (trichotomy lexico (entry_key e1) (entry_key e2)) as [Hlt | [Heq | Hgt]].
  - apply H23. by trans (entry_key e1).
  - apply H23. by rewrite <- Heq.
  - done.
Qed.

Lemma entry_le_antisym_key e1 e2 :
  entry_le e1 e2 -> entry_le e2 e1 -> entry_key e1 = entry_key e2.
Proof.
  unfold entry_le. intros H12 H21.
  by destruct (trichotomy lexico (entry_key e1) (entry_key e2)) as [? | [? | ?]].
Qed.

Lemma entry_key_place e1 e2 :
  entry_key e1 = entry_key e2 -> place e1 = place e2.
Proof.
  unfold entry_key, place, ResourceId_to_tuple.
  destruct e1 as [[m1 t1 n1 i1] p1 ? ? ?], e2 as [[m2 t2 n2 i2] p2 ? ? ?].
  simpl. intros [= -> -> -> -> Hp]. f_equal.
  destruct p1, p2; simpl in *; congruence.
Qed.

End DiffOrder.

(** ** The Diff Engine: independence of the enumeration order *)

Section DiffDeterminism.
Context {Value : Type} `{EqDecision Value}.

Implicit Types (s : Schedule (Value := Value)).
Implicit Types (A B : AttributeTree Value).
Implicit Types (e : ChangeEntry (Value := Value)).
Implicit Types (rid : ResourceId) (attrs fa ta : gmap string Value).

#[local] Existing Instance entry_le_total.
#[local] Existing Instance entry_le_trans.

Lemma bind_Permutation_ext {X Y : Type} (f g : X -> list Y) (l1 l2 : list X) :
  (forall x, f x ≡ₚ g x) -> l1 ≡ₚ l2 -> l1 ≫= f ≡ₚ l2 ≫= g.
Proof.
  intros Hfg Hl. rewrite Hl. clear l1 Hl.
  induction l2 as [| x l IH]; [done |].
  simpl. by rewrite Hfg, IH.
Qed.

Lemma fmap_of_bind {X Y Z : Type} (g : Y -> Z) (f : X -> list Y) (l : list X) :
  g <$> (l ≫= f) = l ≫= fun x => g <$> f x.
Proof.
  induction l as [| x l IH]; [done |].
  rewrite !bind_cons, fmap_app. by rewrite IH.
Qed.

Lemma removedResource_fair s rid attrs :
  fair s -> removedResource s rid attrs ≡ₚ removedResource canonical rid attrs.
Proof. intros [_ Ha]. unfold removedResource. simpl. by rewrite Ha. Qed.

Lemma addedResource_fair s rid attrs :
  fair s -> addedResource s rid attrs ≡ₚ addedResource canonical rid attrs.
Proof. intros [_ Ha]. unfold addedResource. simpl. by rewrite Ha. Qed.

Lemma commonResource_fair s rid fa ta :
  fair s -> commonResource s rid fa ta ≡ₚ commonResource canonical rid fa ta.
Proof. intros [_ Ha]. unfold commonResource. simpl. by rewrite !Ha. Qed.

(** Two fair enumeration orders produce the same entries, up to order. *)
Lemma changes_fair s A B :
  fair s -> changes s A B ≡ₚ changes canonical A B.
Proof.
  intros Hs. pose proof Hs as [Hr _].
  unfold changes, fromOnly, toOnly, inBoth. simpl.
  repeat apply Permutation_app; apply bind_Permutation_ext; try apply Hr.
  - intros [rid attrs]. simpl.
    destruct (B !! rid); [done | by apply removedResource_fair].
  - intros [rid attrs]. simpl.
    destruct (A !! rid); [done | by apply addedResource_fair].
  - intros [rid attrs]. simpl.
    destruct (B !! rid); [by apply commonResource_fair | done].
Qed.

(** Where the entries of each step sit. *)
Lemma elem_of_removedResource e rid attrs :
  e ∈ removedResource canonical rid attrs ->
  resource e = rid /\ (forall p, path e = Some p -> is_Some (attrs !! p)).
Proof.
  unfold removedResource. simpl. intros He.
  apply elem_of_cons in He as [-> | He]; [done |].
  apply list_elem_of_fmap in He as ([p v] & -> & Hpv). simpl.
  split; [done |]. intros ? [= <-].
  apply elem_of_map_to_list in Hpv. by exists v.
Qed.

Lemma elem_of_addedResource e rid attrs :
  e ∈ addedResource canonical rid attrs ->
  resource e = rid /\ (forall p, path e = Some p -> is_Some (attrs !! p)).
Proof.
  unfold addedResource. simpl. intros He.
  apply elem_of_cons in He as [-> | He]; [done |].
  apply list_elem_of_fmap in He as ([p v] & -> & Hpv). simpl.
  split; [done |]. intros ? [= <-].
  apply elem_of_map_to_list in Hpv. by exists v.
Qed.

Lemma elem_of_changedAttribute e rid ta pv :
  e ∈ changedAttribute rid ta pv -> place e = (rid, Some pv.1).
Proof.
  unfold changedAttribute. destruct (ta !! pv.1) as [y |].
  - destruct (decide (pv.2 = y)); [by intros ?%elem_of_nil |].
    by intros ->%list_elem_of_singleton.
  - by intros ->%list_elem_of_singleton.
Qed.

Lemma elem_of_addedAttribute e rid fa pv :
  e ∈ addedAttribute rid fa pv ->
  place e = (rid, Some pv.1) /\ fa !! pv.1 = None.
Proof.
  unfold addedAttribute. destruct (fa !! pv.1) as [x |] eqn:E.
  - by intros ?%elem_of_nil.
  - by intros ->%list_elem_of_singleton.
Qed.

Lemma elem_of_fromOnly e A B :
  e ∈ fromOnly canonical A B ->
  is_Some (A !! resource e) /\ B !! resource e = None.
Proof.
  unfold fromOnly. simpl. intros He.
  apply list_elem_of_bind in He as ([rid attrs] & He & Hra). simpl in He.
  apply elem_of_map_to_list in Hra.
  destruct (B !! rid) eqn:E; [by apply elem_of_nil in He |].
  apply elem_of_removedResource in He as [-> _]. eauto.
Qed.

Lemma elem_of_toOnly e A B :
  e ∈ toOnly canonical A B ->
  A !! resource e = None /\ is_Some (B !! resource e).
Proof.
  unfold toOnly. simpl. intros He.
  apply list_elem_of_bind in He as ([rid attrs] & He & Hra). simpl in He.
  apply elem_of_map_to_list in Hra.
  destruct (A !! rid) eqn:E; [by apply elem_of_nil in He |].
  apply elem_of_addedResource in He as [-> _]. eauto.
Qed.

Lemma elem_of_commonResource e rid fa ta :
  e ∈ commonResource canonical rid fa ta -> resource e = rid.
Proof.
  unfold commonResource. simpl. intros He.
  apply elem_of_app in He as [He | He];
    apply list_elem_of_bind in He as (pv & He & _).
  - apply elem_of_changedAttribute in He. by inversion He.
  - apply elem_of_addedAttribute in He as [He _]. by inversion He.
Qed.

Lemma elem_of_inBoth e A B :
  e ∈ inBoth canonical A B ->
  is_Some (A !! resource e) /\ is_Some (B !! resource e).
Proof.
  unfold inBoth. simpl. intros He.
  apply list_elem_of_bind in He as ([rid attrs] & He & Hra). simpl in He.
  apply elem_of_map_to_list in Hra.
  destruct (B !! rid) eqn:E; [| by apply elem_of_nil in He].
  apply elem_of_commonResource in He as ->. eauto.
Qed.

(** No two entries sit at the same resource and attribute path. *)
Lemma map_to_list_functional {K V : Type} `{Countable K} (m : gmap K V)
    (x1 x2 : K * V) :
  x1 ∈ map_to_list m -> x2 ∈ map_to_list m -> x1.1 = x2.1 -> x1 = x2.
Proof.
  destruct x1 as [k1 v1], x2 as [k2 v2]. simpl.
  intros H1%elem_of_map_to_list H2%elem_of_map_to_list ->. congruence.
Qed.

Lemma NoDup_attribute_places rid attrs
    (f : string * Value -> ChangeEntry (Value := Value)) :
  (forall pv, place (f pv) = (rid, Some pv.1)) ->
  NoDup (place <$> (f <$> map_to_list attrs)).
Proof.
  intros Hf. rewrite <- list_fmap_compose.
  apply NoDup_fmap_2_strong; [| apply NoDup_map_to_list].
  intros x1 x2 H1 H2 Heq. simpl in Heq. rewrite !Hf in Heq.
  apply (map_to_list_functional attrs); [done.. |]. congruence.
Qed.

Lemma NoDup_place_removedResource rid attrs :
  NoDup (place <$> removedResource canonical rid attrs).
Proof.
  unfold removedResource. simpl.
  apply NoDup_cons. split; [| by apply (NoDup_attribute_places rid)].
  rewrite <- list_fmap_compose.
  by intros (pv & Heq & _)%list_elem_of_fmap.
Qed.

Lemma NoDup_place_addedResource rid attrs :
  NoDup (place <$> addedResource canonical rid attrs).
Proof.
  unfold addedResource. simpl.
  apply NoDup_cons. split; [| by apply (NoDup_attribute_places rid)].
  rewrite <- list_fmap_compose.
  by intros (pv & Heq & _)%list_elem_of_fmap.
Qed.

Lemma NoDup_place_commonResource rid fa ta :
  NoDup (place <$> commonResource canonical rid fa ta).
Proof.
  unfold commonResource. simpl. rewrite fmap_app, !fmap_of_bind.
  apply NoDup_app. split; [| split].
  - apply NoDup_bind; [| | apply NoDup_map_to_list].
    + intros x1 x2 y H1 H2 (e1 & -> & He1)%list_elem_of_fmap
        (e2 & Heq & He2)%list_elem_of_fmap.
      apply elem_of_changedAttribute in He1, He2.
      apply (map_to_list_functional fa); [done.. |]. congruence.
    + intros pv _. unfold changedAttribute.
      destruct (ta !! pv.1); [destruct (decide _) |]; simpl;
        auto using NoDup_nil_2, NoDup_singleton.
  - intros y (x1 & (e1 & -> & He1)%list_elem_of_fmap & H1)%list_elem_of_bind
      (x2 & (e2 & Heq & He2)%list_elem_of_fmap & H2)%list_elem_of_bind.
    apply elem_of_changedAttribute in He1.
    apply elem_of_addedAttribute in He2 as [He2 Hnone].
    destruct x1 as [p v]. apply elem_of_map_to_list in H1. simpl in *.
    assert (p = x2.1) by congruence. subst p. congruence.
  - apply NoDup_bind; [| | apply NoDup_map_to_list].
    + intros x1 x2 y H1 H2 (e1 & -> & He1)%list_elem_of_fmap
        (e2 & Heq & He2)%list_elem_of_fmap.
      apply elem_of_addedAttribute in He1 as [He1 _], He2 as [He2 _].
      apply (map_to_list_functional ta); [done.. |]. congruence.
    + intros pv _. unfold addedAttribute.
      destruct (fa !! pv.1); simpl; auto using NoDup_nil_2, NoDup_singleton.
Qed.

Lemma NoDup_place_fromOnly A B : NoDup (place <$> fromOnly canonical A B).
Proof.
  unfold fromOnly. simpl. rewrite fmap_of_bind.
  apply NoDup_bind; [| | apply NoDup_map_to_list].
  - intros [r1 a1] [r2 a2] y H1 H2 (e1 & -> & He1)%list_elem_of_fmap
      (e2 & Heq & He2)%list_elem_of_fmap. simpl in *.
    destruct (B !! r1); [by apply elem_of_nil in He1 |].
    destruct (B !! r2); [by apply elem_of_nil in He2 |].
    apply elem_of_removedResource in He1 as [He1 _], He2 as [He2 _].
    apply (map_to_list_functional A); [done.. |]. simpl.
    assert (resource e1 = resource e2) by by inversion Heq. congruence.
  - intros [rid attrs] _. simpl.
    destruct (B !! rid); [apply NoDup_nil_2 | apply NoDup_place_removedResource].
Qed.

Lemma NoDup_place_toOnly A B : NoDup (place <$> toOnly canonical A B).
Proof.
  unfold toOnly. simpl. rewrite fmap_of_bind.
  apply NoDup_bind; [| | apply NoDup_map_to_list].
  - intros [r1 a1] [r2 a2] y H1 H2 (e1 & -> & He1)%list_elem_of_fmap
      (e2 & Heq & He2)%list_elem_of_fmap. simpl in *.
    destruct (A !! r1); [by apply elem_of_nil in He1 |].
    destruct (A !! r2); [by apply elem_of_nil in He2 |].
    apply elem_of_addedResource in He1 as [He1 _], He2 as [He2 _].
    apply (map_to_list_functional B); [done.. |]. simpl.
    assert (resource e1 = resource e2) by by inversion Heq. congruence.
  - intros [rid attrs] _. simpl.
    destruct (A !! rid); [apply NoDup_nil_2 | apply NoDup_place_addedResource].
Qed.

Lemma NoDup_place_inBoth A B : NoDup (place <$> inBoth canonical A B).
Proof.
  unfold inBoth. simpl. rewrite fmap_of_bind.
  apply NoDup_bind; [| | apply NoDup_map_to_list].
  - intros [r1 a1] [r2 a2] y H1 H2 (e1 & -> & He1)%list_elem_of_fmap
      (e2 & Heq & He2)%list_elem_of_fmap. simpl in *.
    destruct (B !! r1); [| by apply elem_of_nil in He1].
    destruct (B !! r2); [| by apply elem_of_nil in He2].
    apply elem_of_commonResource in He1, He2.
    apply (map_to_list_functional A); [done.. |]. simpl.
    assert (resource e1 = resource e2) by by inversion Heq. congruence.
  - intros [rid attrs] _. simpl.
    destruct (B !! rid); [apply NoDup_place_commonResource | apply NoDup_nil_2].
Qed.

Lemma NoDup_place_changes A B : NoDup (place <$> changes canonical A B).
Proof.
  unfold changes. rewrite !fmap_app.
  apply NoDup_app. split; [apply NoDup_place_fromOnly | split].
  - intros y (e1 & -> & He1)%list_elem_of_fmap Hy.
    apply elem_of_fromOnly in He1 as [[a Ha] Hb].
    apply elem_of_app in Hy as [(e2 & Heq & He2)%list_elem_of_fmap
                              | (e2 & Heq & He2)%list_elem_of_fmap];
      assert (Hr : resource e1 = resource e2) by (by inversion Heq).
    + apply elem_of_toOnly in He2 as [Ha2 _]. congruence.
    + apply elem_of_inBoth in He2 as [_ [b Hb2]]. congruence.
  - apply NoDup_app. split; [apply NoDup_place_toOnly | split].
    + intros y (e1 & -> & He1)%list_elem_of_fmap
        (e2 & Heq & He2)%list_elem_of_fmap.
      assert (Hr : resource e1 = resource e2) by (by inversion Heq).
      apply elem_of_toOnly in He1 as [Ha _].
      apply elem_of_inBoth in He2 as [[a Ha2] _]. congruence.
    + apply NoDup_place_inBoth.
Qed.

Lemma same_place_same_entry A B e1 e2 :
  e1 ∈ changes canonical A B -> e2 ∈ changes canonical A B ->
  place e1 = place e2 -> e1 = e2.
Proof.
  intros H1 H2 Heq. pose proof (NoDup_place_changes A B) as Hnd.
  induction (changes canonical A B) as [| e l IH]; [by apply elem_of_nil in H1 |].
  rewrite fmap_cons in Hnd. apply NoDup_cons in Hnd as [Hnotin Hnd].
  apply elem_of_cons in H1 as [-> | H1], H2 as [-> | H2]; [done | | | by apply IH].
  - destruct Hnotin. rewrite Heq. by apply list_elem_of_fmap_2.
  - destruct Hnotin. rewrite <- Heq. by apply list_elem_of_fmap_2.
Qed.

(** The output is sorted by the invariant ordering. *)
Lemma CompareWith_sorted s A B :
  StronglySorted entry_le (CompareWith s A B).1.
Proof. apply StronglySorted_merge_sort; apply _. Qed.

(** C7: two runs of [Compare] on the same pair of attribute trees return
    the same sequence of entries in the same order, whatever order each
    run enumerates the resources and the attributes in. *)
Theorem CompareWith_deterministic s1 s2 A B :
  fair s1 -> fair s2 -> CompareWith s1 A B = CompareWith s2 A B.
Proof.
  intros Hs1 Hs2. unfold CompareWith. f_equal.
  apply (StronglySorted_unique_strong entry_le).
  - intros e1 e2 He1 He2 H12 H21.
    rewrite merge_sort_Permutation, changes_fair in He1 by done.
    rewrite merge_sort_Permutation, changes_fair in He2 by done.
    apply (same_place_same_entry A B); [done.. |].
    by apply entry_key_place, entry_le_antisym_key.
  - apply (CompareWith_sorted s1 A B).
  - apply (CompareWith_sorted s2 A B).
  - rewrite !merge_sort_Permutation.
    by rewrite (changes_fair s1), (changes_fair s2).
Qed.

End DiffDeterminism.

(** * The handlers on concrete requests *)

Section Runs.
Import example.

#[local] Existing Instance example.types.
#[local] Existing Instance example.database.

(** C1 (as stated) fails: the first provider holds alice's lock on
    "prod/vpc" and answers, the second provider fails; the response has no
    member for "prod/vpc". *)
Lemma GetLocks_failure_drops_collected_locks :
  succeeds (locked alice) /\
  locksOf (locked alice) !! "prod/vpc" = Some alice /\
  (state.GetLocks failing).2 = Some unavailable /\
  written (trace (GetLocks okWriter [locked alice; failing])) =
    [errorDoc "Failed to get locks on a provider" "provider s3 unavailable"] /\
  ¬ reportsKey (trace (GetLocks okWriter [locked alice; failing])) "prod/vpc".
Proof.
  assert (Hw : written (trace (GetLocks okWriter [locked alice; failing])) =
    [errorDoc "Failed to get locks on a provider" "provider s3 unavailable"])
    by (vm_compute; reflexivity).
  split_and!; [done | by vm_compute | done | done |].
  intros (doc & j & Hdoc & Hmem). rewrite Hw in Hdoc.
  apply list_elem_of_singleton in Hdoc. subst doc.
  by apply errorDoc_members in Hmem as [? | ?].
Qed.

Lemma GetLocks_first_failure_aborts_witness :
  Forall succeeds [locked alice] /\
  (state.GetLocks failing).2 = Some unavailable /\
  providersCalled (trace (GetLocks okWriter ([locked alice] ++ failing :: [locked bob]))) =
    [locked alice] ++ [failing] /\
  written (trace (GetLocks okWriter ([locked alice] ++ failing :: [locked bob]))) =
    [errorDoc "Failed to get locks on a provider" (Error unavailable)].
Proof.
  assert (H1 : Forall succeeds [locked alice]) by (repeat constructor).
  assert (H2 : (state.GetLocks failing).2 = Some unavailable) by reflexivity.
  split; [exact H1 |]. split; [exact H2 |].
  pose proof (GetLocks_first_failure_aborts okWriter [locked alice] failing
                [locked bob] unavailable H1 H2) as (_ & Hc & Hw & _).
  split; [exact Hc | exact Hw].
Defined.

Lemma GetLocks_last_provider_wins_witness :
  Forall succeeds ([] ++ locked alice :: [] ++ locked bob :: []) /\
  state.Who alice <> state.Who bob /\
  exists allLocks,
    (collectLocks okWriter ([] ++ locked alice :: [] ++ locked bob :: []) ∅).1 =
      Some allLocks /\
    allLocks !! "prod/vpc" = Some bob /\
    allLocks !! "prod/vpc" <> Some alice.
Proof.
  assert (H1 : Forall succeeds ([] ++ locked alice :: [] ++ locked bob :: []))
    by (repeat constructor).
  assert (H2 : state.Who alice <> state.Who bob) by discriminate.
  split; [exact H1 |]. split; [exact H2 |].
  destruct (GetLocks_last_provider_wins okWriter [] (locked alice) []
              (locked bob) [] "prod/vpc" alice bob H1
              ltac:(vm_compute; reflexivity) ltac:(vm_compute; reflexivity)
              H2 ltac:(constructor))
    as (allLocks & Hc & Hk & Hne & _).
  exists allLocks. split; [exact Hc |]. split; [exact Hk | exact Hne].
Defined.

Lemma GetLocks_same_lock_one_entry_witness :
  Forall succeeds [locked alice; locked alice] /\
  exists allLocks,
    (collectLocks okWriter [locked alice; locked alice] ∅).1 = Some allLocks /\
    length (entriesUnder "prod/vpc" allLocks) = 1.
Proof.
  assert (H1 : Forall succeeds [locked alice; locked alice])
    by (repeat constructor).
  split; [exact H1 |].
  destruct (GetLocks_same_lock_one_entry okWriter
              [locked alice; locked alice] 0 1 (locked alice) (locked alice)
              "prod/vpc" alice alice H1 eq_refl eq_refl
              ltac:(lia) ltac:(vm_compute; reflexivity)
              ltac:(vm_compute; reflexivity) eq_refl eq_refl)
    as (allLocks & Hc & Hone & _).
  exists allLocks. split; [exact Hc | exact Hone].
Defined.

Lemma GetState_empty_version_uses_default_witness :
  Get (Query (request "prod/vpc" [])) "versionid" = "" /\
  defaultsAsked (trace (GetState okWriter (request "prod/vpc" []) reg0)) =
    [index (Vars (request "prod/vpc" [])) "lineage"].
Proof.
  assert (H1 : Get (Query (request "prod/vpc" [])) "versionid" = "")
    by (vm_compute; reflexivity).
  split; [exact H1 |].
  exact (proj1 (GetState_empty_version_uses_default okWriter
                  (request "prod/vpc" []) reg0 H1)).
Defined.

(** C4 (as stated) fails: "d1" is a version of lineage "prod/db", not of
    "prod/vpc"; requested under "prod/vpc" it is passed to the database as
    it is, and the response is the state the database returns, not an
    error. *)
Lemma GetState_foreign_version_served :
  Get (Query (request "prod/vpc" [("versionid", ["d1"])])) "versionid" = "d1" /\
  ¬ registry.belongs reg0 "prod/vpc" "d1" /\
  trace (GetState okWriter (request "prod/vpc" [("versionid", ["d1"])]) reg0) =
    [EvGetState "prod/vpc" "d1"; EvWrite (JArray [])] /\
  (forall doc,
     doc ∈ written (trace (GetState okWriter
                             (request "prod/vpc" [("versionid", ["d1"])]) reg0)) ->
     ¬ isErrorDoc doc).
Proof.
  assert (Hq : Get (Query (request "prod/vpc" [("versionid", ["d1"])]))
                 "versionid" = "d1") by (vm_compute; reflexivity).
  assert (Hl : index (Vars (request "prod/vpc" [("versionid", ["d1"])]))
                 "lineage" = "prod/vpc") by (vm_compute; reflexivity).
  assert (Hst : db.marshal_State (db.GetState reg0 "prod/vpc" "d1") =
                (JArray [], None)) by (vm_compute; reflexivity).
  assert (Ht : trace (GetState okWriter
                        (request "prod/vpc" [("versionid", ["d1"])]) reg0) =
               [EvGetState "prod/vpc" "d1"; EvWrite (JArray [])]).
  { rewrite GetState_trace_explicit by (rewrite Hq; discriminate).
    rewrite Hq, Hl, Hst. unfold respond. by rewrite writeString_trace. }
  split_and!; [exact Hq | | exact Ht |].
  - intros (v & Hin & Hlin & Hv). unfold reg0 in Hin.
    repeat (apply elem_of_cons in Hin as [-> | Hin]); try discriminate.
    by apply elem_of_nil in Hin.
  - intros doc Hdoc. rewrite Ht in Hdoc. simpl in Hdoc.
    apply list_elem_of_singleton in Hdoc. subst doc.
    intros (message & details & Heq). discriminate Heq.
Qed.

Lemma GetState_explicit_version_unchecked_witness :
  Get (Query (request "prod/vpc" [("versionid", ["d1"])])) "versionid" <> "" /\
  statesLoaded (trace (GetState okWriter
                         (request "prod/vpc" [("versionid", ["d1"])]) reg0)) =
    [(index (Vars (request "prod/vpc" [("versionid", ["d1"])])) "lineage",
      Get (Query (request "prod/vpc" [("versionid", ["d1"])])) "versionid")].
Proof.
  assert (H1 : Get (Query (request "prod/vpc" [("versionid", ["d1"])]))
                 "versionid" <> "")
    by (vm_compute; discriminate).
  split; [exact H1 |].
  exact (proj2 (proj2 (GetState_explicit_version_unchecked okWriter
                  (request "prod/vpc" [("versionid", ["d1"])]) reg0 H1))).
Defined.

Lemma GetState_unknown_lineage_witness :
  Get (Query (request "prod/none" [])) "versionid" = "" /\
  Forall (fun v => registry.lineage v <>
                   index (Vars (request "prod/none" [])) "lineage") reg0 /\
  exists e,
    err_kind e = UnknownLineageError /\
    written (trace (GetState okWriter (request "prod/none" []) reg0)) =
      [errorDoc "Failed to retrieve default version" (Error e)].
Proof.
  assert (H1 : Get (Query (request "prod/none" [])) "versionid" = "")
    by (vm_compute; reflexivity).
  assert (H2 : Forall (fun v => registry.lineage v <>
                   index (Vars (request "prod/none" [])) "lineage") reg0)
    by (repeat constructor; vm_compute; discriminate).
  split; [exact H1 |]. split; [exact H2 |].
  destruct (GetState_unknown_lineage (H := types) ∅ okWriter
              (request "prod/none" []) reg0 H1 H2)
    as (e & _ & Hk & _ & Hw & _).
  exists e. split; [exact Hk | exact Hw].
Defined.

Lemma backwards_fair : fair backwards.
Proof. split; intros m; simpl; apply reverse_Permutation. Defined.

Lemma canonical_fair : fair (canonical (Value := string)).
Proof. split; intros m; reflexivity. Defined.

Lemma CompareWith_deterministic_witness :
  fair (canonical (Value := string)) /\ fair backwards /\
  CompareWith canonical vpc_v1 vpc_v2 = CompareWith backwards vpc_v1 vpc_v2.
Proof.
  split; [exact canonical_fair |]. split; [exact backwards_fair |].
  exact (CompareWith_deterministic canonical backwards vpc_v1 vpc_v2
           canonical_fair backwards_fair).
Defined.

End Runs.

(** * Further properties of [GetLocks], [GetState] and [StateCompare] *)

Section MoreLockAggregation.
Context `{db.Types}.

Implicit Types (sp : state.Provider) (sps : list state.Provider).

(** X1: [JSONError] writes one document, the object whose members are
    "details" (the text of the error, "<nil>" for a nil error) and then
    "error" (the message); a failed write is logged once and not retried. *)
Theorem JSONError_response (w : ResponseWriter) (message : string)
    (err : option error) :
  trace (JSONError w message err) =
  EvWrite (JObject [("details", JString (Sprintf_v err));
                    ("error", JString message)]) ::
  match WriteString w (JObject [("details", JString (Sprintf_v err));
                                ("error", JString message)]) with
  | Some e => [EvLogError (Error e)]
  | None => []
  end.
Proof. rewrite JSONError_eq. apply writeString_trace. Qed.

Lemma respond_written_once (w : ResponseWriter) (failure : string)
    (res : GoResult json.t) :
  length (written (trace (respond w failure res))) = 1.
Proof.
  destruct res as [j [e |]]; simpl.
  - by rewrite JSONError_eq, writeString_written.
  - by rewrite writeString_written.
Qed.

Lemma respond_providersCalled (w : ResponseWriter) (failure : string)
    (res : GoResult json.t) :
  providersCalled (trace (respond w failure res)) = [].
Proof.
  destruct res as [j [e |]]; simpl.
  - by rewrite JSONError_eq, providersCalled_writeString.
  - by rewrite providersCalled_writeString.
Qed.

Lemma providersCalled_app (t1 t2 : list Event) :
  providersCalled (t1 ++ t2) = providersCalled t1 ++ providersCalled t2.
Proof. apply omap_app. Qed.

(** Every provider answers, or there is a first one that fails. *)
Lemma first_failure sps :
  Forall succeeds sps \/
  exists pre sp post e,
    sps = pre ++ sp :: post /\ Forall succeeds pre /\
    (state.GetLocks sp).2 = Some e.
Proof.
  induction sps as [| sp sps IH]; [by left |].
  destruct ((state.GetLocks sp).2) as [e |] eqn:E.
  - right. exists [], sp, sps, e. by repeat split.
  - destruct IH as [Hok | (pre & p & post & e & -> & Hpre & Hp)].
    + left. by constructor.
    + right. exists (sp :: pre), p, post, e. repeat split; [| done].
      by constructor.
Qed.

Lemma GetLocks_trace_failure w pre sp post e :
  Forall succeeds pre ->
  (state.GetLocks sp).2 = Some e ->
  trace (GetLocks w (pre ++ sp :: post)) =
  (EvGetLocks <$> pre ++ [sp]) ++
  trace (writeString w (errorDoc "Failed to get locks on a provider" (Error e))).
Proof.
  intros Hok Hsp. unfold GetLocks. rewrite bind_trace.
  rewrite (collectLocks_first_failure w pre sp post ∅ e Hok Hsp).
  simpl. by rewrite app_nil_r.
Qed.

(** X2: [GetLocks] writes exactly one document for every list of
    providers, whether a provider fails, the encoding fails or all goes
    well. *)
Theorem GetLocks_writes_once w sps :
  length (written (trace (GetLocks w sps))) = 1.
Proof.
  destruct (first_failure sps) as [Hok | (pre & sp & post & e & -> & Hpre & Hsp)].
  - rewrite (GetLocks_all_succeed w sps Hok), written_app, written_calls.
    apply respond_written_once.
  - rewrite (GetLocks_trace_failure w pre sp post e Hpre Hsp).
    by rewrite written_app, written_calls, writeString_written.
Qed.

(** X3: [GetLocks] calls the providers in list order without skipping
    any: the providers called form a prefix of the list, and the whole
    list when none of them fails. *)
Theorem GetLocks_calls_in_order w sps :
  providersCalled (trace (GetLocks w sps)) `prefix_of` sps /\
  (Forall succeeds sps -> providersCalled (trace (GetLocks w sps)) = sps).
Proof.
  assert (Hall : Forall succeeds sps ->
                 providersCalled (trace (GetLocks w sps)) = sps).
  { intros Hok. rewrite (GetLocks_all_succeed w sps Hok), providersCalled_app.
    by rewrite providersCalled_calls, respond_providersCalled, app_nil_r. }
  split; [| done].
  destruct (first_failure sps) as [Hok | (pre & sp & post & e & -> & Hpre & Hsp)].
  - by rewrite Hall.
  - rewrite (GetLocks_trace_failure w pre sp post e Hpre Hsp).
    rewrite providersCalled_app, providersCalled_calls.
    rewrite providersCalled_writeString, app_nil_r.
    exists post. by rewrite <- app_assoc.
Qed.

(** The value under a key of the merged mapping was reported by a
    provider, or was in the initial mapping. *)
Lemma merged_lookup_origin sps acc k v :
  merged sps acc !! k = Some v ->
  acc !! k = Some v \/ exists sp, sp ∈ sps /\ locksOf sp !! k = Some v.
Proof.
  revert acc. induction sps as [| p sps IH] using rev_ind; intros acc Hk.
  - by left.
  - rewrite merged_app in Hk. simpl in Hk.
    destruct (locksOf p !! k) as [u |] eqn:Hp.
    + rewrite (mergeLocks_lookup_reported _ _ k u Hp) in Hk.
      right. exists p. split; [apply elem_of_app; right; by left | congruence].
    + rewrite mergeLocks_lookup_unreported in Hk by done.
      destruct (IH acc Hk) as [? | (sp & Hin & Hsp)]; [by left |].
      right. exists sp. split; [apply elem_of_app; by left | done].
Qed.

Lemma merged_keys sps k :
  is_Some (merged sps ∅ !! k) <->
  exists sp, sp ∈ sps /\ is_Some (locksOf sp !! k).
Proof.
  split.
  - intros [v Hk].
    destruct (merged_lookup_origin sps ∅ k v Hk) as [He | (sp & Hin & Hsp)];
      [by rewrite lookup_empty in He | eauto].
  - intros (sp & Hin & [v Hsp]). by apply (merged_lookup_reported sps ∅ sp k v).
Qed.

(** X4: when every provider answers, the aggregated mapping holds a key
    exactly when some provider reports it, and the lock under a key is the
    report of one of the providers: no lock is lost and none is made up. *)
Theorem GetLocks_reports_union w sps :
  Forall succeeds sps ->
  exists allLocks,
    (collectLocks w sps ∅).1 = Some allLocks /\
    (forall k, is_Some (allLocks !! k) <->
               exists sp, sp ∈ sps /\ is_Some (locksOf sp !! k)) /\
    (forall k v, allLocks !! k = Some v ->
                 exists sp, sp ∈ sps /\ locksOf sp !! k = Some v).
Proof.
  intros Hok. exists (merged sps ∅).
  split; [by rewrite collectLocks_all_succeed |].
  assert (Horigin : forall k v, merged sps ∅ !! k = Some v ->
                    exists sp, sp ∈ sps /\ locksOf sp !! k = Some v).
  { intros k v Hk. destruct (merged_lookup_origin sps ∅ k v Hk) as [He | ?];
      [by rewrite lookup_empty in He | done]. }
  split; [apply merged_keys | done].
Qed.

Lemma merged_agree_permutation sps1 sps2 :
  sps1 ≡ₚ sps2 -> locks.agree sps1 -> merged sps1 ∅ = merged sps2 ∅.
Proof.
  intros Hperm Hagree. apply map_eq. intros k.
  destruct (merged sps1 ∅ !! k) as [v |] eqn:H1.
  - destruct (merged_lookup_origin sps1 ∅ k v H1) as [He | (sp & Hin & Hsp)];
      [by rewrite lookup_empty in He |].
    destruct (merged_lookup_reported sps2 ∅ sp k v) as [v' H2];
      [by rewrite <- Hperm | done |].
    rewrite H2. f_equal.
    destruct (merged_lookup_origin sps2 ∅ k v' H2) as [He | (sp' & Hin' & Hsp')];
      [by rewrite lookup_empty in He |].
    rewrite <- Hperm in Hin'. symmetry. by apply (Hagree sp' sp k).
  - destruct (merged sps2 ∅ !! k) as [v' |] eqn:H2; [| done].
    destruct (merged_lookup_origin sps2 ∅ k v' H2) as [He | (sp' & Hin' & Hsp')];
      [by rewrite lookup_empty in He |].
    rewrite <- Hperm in Hin'.
    destruct (merged_lookup_reported sps1 ∅ sp' k v' Hin' Hsp') as [u Hu].
    congruence.
Qed.

(** X5: when every provider answers and no two of them disagree on a key,
    the order of the providers does not matter: any reordering of the list
    builds the same mapping and writes the same document. *)
Theorem GetLocks_order_irrelevant_without_conflict w sps1 sps2 :
  sps1 ≡ₚ sps2 ->
  Forall succeeds sps1 ->
  locks.agree sps1 ->
  (collectLocks w sps1 ∅).1 = (collectLocks w sps2 ∅).1 /\
  written (trace (GetLocks w sps1)) = written (trace (GetLocks w sps2)).
Proof.
  intros Hperm Hok Hagree.
  assert (Hok2 : Forall succeeds sps2) by by rewrite <- Hperm.
  rewrite !collectLocks_all_succeed by done. simpl.
  rewrite (GetLocks_all_succeed w sps1 Hok), (GetLocks_all_succeed w sps2 Hok2).
  rewrite !written_app, !written_calls.
  by rewrite (merged_agree_permutation sps1 sps2 Hperm Hagree).
Qed.

#[local] Instance key_le_total {V : Type} : Total (key_le (V := V)).
Proof. intros a b. unfold key_le. apply (total String.le). Qed.

Lemma marshalMembers_names {V : Type} (enc : V -> GoResult json.t)
    (kvs : list (string * V)) (ms : list (string * json.t)) :
  marshalMembers enc kvs = (ms, None) -> ms.*1 = kvs.*1.
Proof.
  intros Hm. apply marshalMembers_ok in Hm.
  induction Hm as [| kv m kvs ms [Hname _] _ IH]; [done |].
  rewrite !fmap_cons. by rewrite Hname, IH.
Qed.

Lemma sortedEntries_names_sorted {V : Type} (m : gmap string V) :
  Sorted String.le (sortedEntries m).*1.
Proof.
  unfold sortedEntries.
  apply (Sorted_fmap fst key_le String.le); [done |].
  apply Sorted_merge_sort. apply _.
Qed.

(** X6: when every provider answers and the locks can be encoded, the
    object written lists each reported lineage key once, in increasing
    byte order, and lists nothing else. *)
Theorem GetLocks_members_sorted w sps doc :
  Forall succeeds sps ->
  MarshalMap db.marshal_LockInfo (merged sps ∅) = (doc, None) ->
  written (trace (GetLocks w sps)) = [doc] /\
  Sorted String.le (members doc).*1 /\
  NoDup (members doc).*1 /\
  (forall k, k ∈ (members doc).*1 <->
             exists sp, sp ∈ sps /\ is_Some (locksOf sp !! k)).
Proof.
  intros Hok Hdoc. split.
  { rewrite (GetLocks_all_succeed w sps Hok), written_app, written_calls.
    rewrite Hdoc. simpl. by rewrite writeString_written. }
  unfold MarshalMap in Hdoc.
  destruct (marshalMembers _ _) as [ms [e |]] eqn:Hms; [done |].
  inversion Hdoc. subst doc. simpl.
  rewrite (marshalMembers_names _ _ _ Hms).
  assert (Hperm : (sortedEntries (merged sps ∅)).*1 ≡ₚ
                  (map_to_list (merged sps ∅)).*1).
  { unfold sortedEntries. by rewrite merge_sort_Permutation. }
  split; [apply sortedEntries_names_sorted |]. split.
  - rewrite Hperm. apply NoDup_fst_map_to_list.
  - intros k. rewrite Hperm.
    rewrite <- merged_keys.
    rewrite list_elem_of_fmap. split.
    + intros ([k' v] & -> & Hin). apply elem_of_map_to_list in Hin. by exists v.
    + intros [v Hv]. exists (k, v). split; [done |].
      by apply elem_of_map_to_list.
Qed.

Lemma marshalMembers_fail {V : Type} (enc : V -> GoResult json.t)
    (kvs : list (string * V)) :
  Exists (fun kv => is_Some (enc kv.2).2) kvs ->
  exists e kv, kv ∈ kvs /\ (enc kv.2).2 = Some e /\
               (marshalMembers enc kvs).2 = Some e.
Proof.
  induction kvs as [| [k v] kvs IH]; intros Hex; [by apply Exists_nil in Hex |].
  simpl. destruct (enc v) as [j [e |]] eqn:Ev.
  - exists e, (k, v). split; [by left |]. simpl. by rewrite Ev.
  - apply Exists_cons in Hex as [[e He] | Hex];
      [simpl in He; rewrite Ev in He; done |].
    destruct (IH Hex) as (e & kv & Hin & Henc & Hm).
    exists e, kv. split; [by right |]. split; [done |].
    by destruct (marshalMembers enc kvs) as [js [e' |]]; simplify_eq/=.
Qed.

(** X7: when every provider answers but one of the aggregated locks cannot
    be encoded, no lock object is written at all: the only document is the
    error response "Failed to marshal locks", carrying the encoding error
    of one of the aggregated locks. *)
Theorem GetLocks_unencodable_lock w sps allLocks k v e0 :
  Forall succeeds sps ->
  (collectLocks w sps ∅).1 = Some allLocks ->
  allLocks !! k = Some v ->
  (db.marshal_LockInfo v).2 = Some e0 ->
  exists e k' v',
    allLocks !! k' = Some v' /\
    (db.marshal_LockInfo v').2 = Some e /\
    written (trace (GetLocks w sps)) =
      [errorDoc "Failed to marshal locks" (Error e)].
Proof.
  intros Hok Hc Hk Hv.
  rewrite collectLocks_all_succeed in Hc by done. simpl in Hc.
  injection Hc as <-.
  destruct (marshalMembers_fail db.marshal_LockInfo (sortedEntries (merged sps ∅)))
    as (e & [k' v'] & Hin & Henc & Hm).
  { apply Exists_exists. exists (k, v). split; [| simpl; by rewrite Hv].
    unfold sortedEntries. rewrite merge_sort_Permutation.
    by apply elem_of_map_to_list. }
  exists e, k', v'. split; [| split; [done |]].
  - unfold sortedEntries in Hin. rewrite merge_sort_Permutation in Hin.
    by apply elem_of_map_to_list in Hin.
  - rewrite (GetLocks_all_succeed w sps Hok), written_app, written_calls.
    unfold MarshalMap.
    destruct (marshalMembers _ _) as [ms [e' |]]; simplify_eq/=.
    by rewrite JSONError_eq, writeString_written.
Qed.

End MoreLockAggregation.

Section MoreVersionResolution.
Context `{db.Types} {D : Type} `{!db.Database D}.

(** X8: when the [versionid] parameter is empty and the database cannot
    give a default version, [GetState] answers with the error response
    "Failed to retrieve default version" carrying the text of that error,
    and never loads a state; the version returned beside the error is not
    used. *)
Theorem GetState_default_version_error (w : ResponseWriter) (r : Request)
    (d : D) (v : string) (e : error) :
  Get (Query r) "versionid" = "" ->
  db.DefaultVersion d (index (Vars r) "lineage") = (v, Some e) ->
  trace (GetState w r d) =
    EvDefaultVersion (index (Vars r) "lineage") ::
    trace (writeString w
             (errorDoc "Failed to retrieve default version" (Error e))) /\
  written (trace (GetState w r d)) =
    [errorDoc "Failed to retrieve default version" (Error e)] /\
  statesLoaded (trace (GetState w r d)) = [].
Proof.
  intros Hq Hd. rewrite (GetState_trace_default w r d Hq), Hd, JSONError_eq.
  split; [done |]. rewrite writeString_trace. simpl.
  by destruct (WriteString w _).
Qed.

(** X9: [GetState] and [StateCompare] write exactly one document for
    every request, whatever the database, the diff engine and the encoder
    return. *)
Theorem GetState_StateCompare_write_once (w : ResponseWriter) (r : Request)
    (d : D) :
  length (written (trace (GetState w r d))) = 1 /\
  length (written (trace (StateCompare w r d))) = 1.
Proof.
  split.
  - destruct (decide (Get (Query r) "versionid" = "")) as [Hq | Hq].
    + rewrite (GetState_trace_default w r d Hq).
      destruct (db.DefaultVersion d _) as [v [e |]]; simpl.
      * by rewrite JSONError_eq, writeString_written.
      * apply respond_written_once.
    + rewrite (GetState_trace_explicit w r d Hq). simpl.
      apply respond_written_once.
  - unfold StateCompare, call_GetState, call_Compare.
    rewrite !bind_trace, !bind_value. simpl.
    destruct (db.Compare _ _) as [c [e |]]; simpl.
    + by rewrite JSONError_eq, writeString_written.
    + apply respond_written_once.
Qed.

Lemma StateCompare_trace (w : ResponseWriter) (r : Request) (d : D) :
  trace (StateCompare w r d) =
  EvGetState (index (Vars r) "lineage") (Get (Query r) "from") ::
  EvGetState (index (Vars r) "lineage") (Get (Query r) "to") ::
  EvCompare
    (db.GetState d (index (Vars r) "lineage") (Get (Query r) "from"))
    (db.GetState d (index (Vars r) "lineage") (Get (Query r) "to")) ::
  match db.Compare
          (db.GetState d (index (Vars r) "lineage") (Get (Query r) "from"))
          (db.GetState d (index (Vars r) "lineage") (Get (Query r) "to")) with
  | (_, Some e) =>
      trace (JSONError w "Failed to compare state versions" (Some e))
  | (c, None) =>
      trace (respond w "Failed to marshal state compare"
               (db.marshal_Comparison c))
  end.
Proof.
  unfold StateCompare, call_GetState, call_Compare.
  rewrite !bind_trace, !bind_value. simpl.
  by destruct (db.Compare _ _) as [c [e |]].
Qed.


(** X11: when the diff engine returns an error, [StateCompare] answers
    with the error response "Failed to compare state versions" carrying
    the text of that error; the comparison returned beside the error is
    not encoded. *)
Theorem StateCompare_compare_error (w : ResponseWriter) (r : Request) (d : D)
    (c : db.Comparison) (e : error) :
  db.Compare
    (db.GetState d (index (Vars r) "lineage") (Get (Query r) "from"))
    (db.GetState d (index (Vars r) "lineage") (Get (Query r) "to")) =
    (c, Some e) ->
  written (trace (StateCompare w r d)) =
    [errorDoc "Failed to compare state versions" (Error e)].
Proof.
  intros Hc. rewrite StateCompare_trace, Hc. simpl.
  by rewrite JSONError_eq, writeString_written.
Qed.

End MoreVersionResolution.

(** * Properties of the remaining handlers *)

Section RemainingHandlers.
Context `{db.Types} `{dbq.Values} {D : Type} `{!dbq.Queries D}.

Implicit Types (w : ResponseWriter) (r : FullRequest) (d : D).

(** Names the traces of the sub-handlers that [simpl] leaves as second
    projections. *)
Ltac fold_traces :=
  repeat match goal with
  | |- context [snd ?m] =>
      lazymatch type of m with
      | handlers.Handler _ => change (snd m) with (handlers.trace m)
      | api.Handler _ => change (snd m) with (api.trace m)
      end
  end.

Lemma docs_lift (t : list api.Event) :
  handlers.docs (handlers.Ev <$> t) = written t.
Proof.
  induction t as [| [] t IH]; [done | simpl; try f_equal; exact IH ..].
Qed.

Lemma calls_lift (t : list api.Event) :
  handlers.calls (handlers.Ev <$> t) = [].
Proof. induction t as [| e t IH]; [done | exact IH]. Qed.

Lemma docs_app (t1 t2 : list handlers.Event) :
  handlers.docs (t1 ++ t2) = handlers.docs t1 ++ handlers.docs t2.
Proof. apply omap_app. Qed.

Lemma calls_app (t1 t2 : list handlers.Event) :
  handlers.calls (t1 ++ t2) = handlers.calls t1 ++ handlers.calls t2.
Proof. apply omap_app. Qed.

Lemma JSONError_written w message err :
  written (trace (JSONError w message err)) =
  [errorDoc message (Sprintf_v err)].
Proof. by rewrite JSONError_eq, writeString_written. Qed.

(** What [respondLogged] leaves in the trace. *)
Lemma respondLogged_trace w failure (res : GoResult json.t) :
  handlers.trace (handlers.respondLogged w failure res) =
  match res.2 with
  | Some e =>
      handlers.Ev (EvLogError ((failure +:+ ": ") +:+ Error e)) ::
      (handlers.Ev <$> trace (JSONError w failure (Some e)))
  | None => handlers.Ev <$> trace (writeString w res.1)
  end.
Proof.
  destruct res as [j [e |]]; simpl; [| done].
  done.
Qed.

Lemma respondLogged_docs_once w failure (res : GoResult json.t) :
  length (handlers.docs (handlers.trace (handlers.respondLogged w failure res))) = 1.
Proof.
  rewrite respondLogged_trace. destruct res as [j [e |]]; simpl.
  - by rewrite docs_lift, JSONError_written.
  - by rewrite docs_lift, writeString_written.
Qed.

Lemma respondLogged_calls w failure (res : GoResult json.t) :
  handlers.calls (handlers.trace (handlers.respondLogged w failure res)) = [].
Proof.
  rewrite respondLogged_trace. destruct res as [j [e |]]; simpl;
    by rewrite calls_lift.
Qed.

(** The encoding of a paginated response: the members come out in key
    order, whatever the order of the assignments. *)
Lemma pagedResponse_states (items page total : dbq.Any) :
  sortedEntries (handlers.pagedResponse "states" items page total) =
  [("page", page); ("states", items); ("total", total)].
Proof. vm_compute. reflexivity. Qed.

Lemma pagedResponse_results (items page total : dbq.Any) :
  sortedEntries (handlers.pagedResponse "results" items page total) =
  [("page", page); ("results", items); ("total", total)].
Proof. vm_compute. reflexivity. Qed.

Lemma pagedResponse_plans (items page total : dbq.Any) :
  sortedEntries (handlers.pagedResponse "plans" items page total) =
  [("page", page); ("plans", items); ("total", total)].
Proof. vm_compute. reflexivity. Qed.

Lemma MarshalMap_paged (key : string) (items page total : dbq.Any)
    (ji jp jt : json.t) :
  sortedEntries (handlers.pagedResponse key items page total) =
    [("page", page); (key, items); ("total", total)] ->
  dbq.Marshal items = (ji, None) ->
  dbq.Marshal page = (jp, None) ->
  dbq.Marshal total = (jt, None) ->
  MarshalMap dbq.Marshal (handlers.pagedResponse key items page total) =
  (JObject [("page", jp); (key, ji); ("total", jt)], None).
Proof.
  intros Hs Hi Hp Ht. unfold MarshalMap. rewrite Hs. simpl.
  by rewrite Hp, Hi, Ht.
Qed.

(** X12: for a method other than GET and POST, [ManagePlans] only sends
    the plain-text error "Invalid request method." with status 405: it
    calls nothing and writes no JSON document. *)
Theorem ManagePlans_invalid_method w r d :
  Method r <> "GET" ->
  Method r <> "POST" ->
  handlers.trace (handlers.ManagePlans w r d) =
    [handlers.EvHttpError "Invalid request method." 405] /\
  handlers.calls (handlers.trace (handlers.ManagePlans w r d)) = [] /\
  handlers.docs (handlers.trace (handlers.ManagePlans w r d)) = [].
Proof.
  intros Hget Hpost. unfold handlers.ManagePlans.
  destruct (decide (Method r = "GET")); [done |].
  destruct (decide (Method r = "POST")); done.
Qed.

Lemma GetPlan_calls w r d :
  handlers.calls (handlers.trace (handlers.GetPlan w r d)) =
  [handlers.CGetPlan (Get (Query r) "planid")].
Proof.
  unfold handlers.GetPlan. simpl. fold_traces.
  by rewrite respondLogged_calls.
Qed.

Lemma GetPlans_calls w r d :
  handlers.calls (handlers.trace (handlers.GetPlans w r d)) =
  [handlers.CGetPlans (Get (Query r) "lineage") (Get (Query r) "limit")
     (Get (Query r) "page")].
Proof.
  unfold handlers.GetPlans. simpl.
  destruct (dbq.GetPlans d _ _ _) as [[plans page] total]. simpl.
  fold_traces. by rewrite respondLogged_calls.
Qed.

(** X13: on GET, [ManagePlans] makes exactly one call: [GetPlan] with the
    first [planid] value when that value is not empty, and otherwise (the
    parameter is missing or empty) [GetPlans] with the [lineage], [limit]
    and [page] parameters. *)
Theorem ManagePlans_get_routing w r d :
  Method r = "GET" ->
  handlers.calls (handlers.trace (handlers.ManagePlans w r d)) =
  [if decide (Get (Query r) "planid" = "")
   then handlers.CGetPlans (Get (Query r) "lineage") (Get (Query r) "limit")
          (Get (Query r) "page")
   else handlers.CGetPlan (Get (Query r) "planid")].
Proof.
  intros Hm. unfold handlers.ManagePlans.
  destruct (decide (Method r = "GET")); [| done].
  destruct (decide (Get (Query r) "planid" = "")) as [Hq | Hq].
  - destruct (decide (Get (Query r) "planid" <> "")); [done |].
    apply GetPlans_calls.
  - destruct (decide (Get (Query r) "planid" <> "")); [| done].
    apply GetPlan_calls.
Qed.

Lemma SubmitPlan_calls w r d :
  handlers.calls (handlers.trace (handlers.SubmitPlan w r d)) =
  handlers.CReadAll ::
  match Body r with
  | (body, None) => [handlers.CInsertPlan body]
  | (_, Some _) => []
  end.
Proof.
  unfold handlers.SubmitPlan. simpl.
  destruct (Body r) as [body [e |]]; simpl.
  - fold_traces. by rewrite calls_lift.
  - destruct (dbq.InsertPlan d body) as [e |]; simpl; [| done].
    fold_traces. by rewrite calls_lift.
Qed.

(** X14: [ManagePlans] inserts a plan only on POST, only after the body
    was read without error, and what it inserts is the body as read. *)
Theorem ManagePlans_inserts_only_on_post w r d (body : string) :
  handlers.CInsertPlan body ∈
    handlers.calls (handlers.trace (handlers.ManagePlans w r d)) ->
  Method r = "POST" /\ Body r = (body, None).
Proof.
  unfold handlers.ManagePlans.
  destruct (decide (Method r = "GET")) as [Hget | Hget].
  - destruct (decide (Get (Query r) "planid" <> "")).
    + rewrite GetPlan_calls. by intros [=]%list_elem_of_singleton.
    + rewrite GetPlans_calls. by intros [=]%list_elem_of_singleton.
  - destruct (decide (Method r = "POST")) as [Hpost | Hpost].
    + rewrite SubmitPlan_calls. intros Hin. split; [done |].
      destruct (Body r) as [b [e |]];
        apply elem_of_cons in Hin as [[=] | Hin].
      * by apply elem_of_nil in Hin.
      * apply list_elem_of_singleton in Hin. by injection Hin as ->.
    + simpl. by intros ?%elem_of_nil.
Qed.

(** X15: when the body is read and the insertion succeeds, [SubmitPlan]
    reads the body, inserts it, and does nothing else: it writes no
    document and logs nothing. *)
Theorem SubmitPlan_success_is_silent w r d (body : string) :
  Body r = (body, None) ->
  dbq.InsertPlan d body = None ->
  handlers.trace (handlers.SubmitPlan w r d) =
    [handlers.EvCall handlers.CReadAll;
     handlers.EvCall (handlers.CInsertPlan body)] /\
  handlers.docs (handlers.trace (handlers.SubmitPlan w r d)) = [] /\
  handlers.logged (handlers.trace (handlers.SubmitPlan w r d)) = [].
Proof.
  intros Hb Hi. unfold handlers.SubmitPlan. simpl. rewrite Hb. simpl.
  by rewrite Hi.
Qed.

(** X16: when reading the body fails, [SubmitPlan] never calls
    [InsertPlan]: it logs "Failed to read body: " followed by the error
    text and answers with the error response "Failed to read body during
    plan submit". *)
Theorem SubmitPlan_read_failure w r d (partial : string) (e : error) :
  Body r = (partial, Some e) ->
  handlers.trace (handlers.SubmitPlan w r d) =
    handlers.EvCall handlers.CReadAll ::
    handlers.Ev (EvLogError ("Failed to read body: " +:+ Error e)) ::
    (handlers.Ev <$>
       trace (JSONError w "Failed to read body during plan submit" (Some e))) /\
  handlers.calls (handlers.trace (handlers.SubmitPlan w r d)) =
    [handlers.CReadAll] /\
  handlers.docs (handlers.trace (handlers.SubmitPlan w r d)) =
    [errorDoc "Failed to read body during plan submit" (Error e)].
Proof.
  intros Hb. split; [| split].
  - unfold handlers.SubmitPlan. simpl. by rewrite Hb.
  - by rewrite SubmitPlan_calls, Hb.
  - unfold handlers.SubmitPlan. simpl. rewrite Hb. simpl.
    fold_traces. by rewrite docs_lift, JSONError_written.
Qed.

(** X17: when the insertion fails, [SubmitPlan] logs "Failed to insert
    plan to db: " followed by the error text and answers with the error
    response "Failed to insert plan to db"; the insertion is attempted
    once. *)
Theorem SubmitPlan_insert_failure w r d (body : string) (e : error) :
  Body r = (body, None) ->
  dbq.InsertPlan d body = Some e ->
  handlers.trace (handlers.SubmitPlan w r d) =
    handlers.EvCall handlers.CReadAll ::
    handlers.EvCall (handlers.CInsertPlan body) ::
    handlers.Ev (EvLogError ("Failed to insert plan to db: " +:+ Error e)) ::
    (handlers.Ev <$>
       trace (JSONError w "Failed to insert plan to db" (Some e))) /\
  handlers.docs (handlers.trace (handlers.SubmitPlan w r d)) =
    [errorDoc "Failed to insert plan to db" (Error e)].
Proof.
  intros Hb Hi. split.
  - unfold handlers.SubmitPlan. simpl. rewrite Hb. simpl. by rewrite Hi.
  - unfold handlers.SubmitPlan. simpl. rewrite Hb. simpl. rewrite Hi. simpl.
    fold_traces. by rewrite docs_lift, JSONError_written.
Qed.

(** X18: when its three parts can be encoded, the object [ListStateStats]
    writes has exactly the members "page", "states" and "total", in this
    order. *)
Theorem ListStateStats_response_shape w r d (states page total : dbq.Any)
    (js jp jt : json.t) :
  dbq.ListStateStats d (Query r) = (states, page, total) ->
  dbq.Marshal states = (js, None) ->
  dbq.Marshal page = (jp, None) ->
  dbq.Marshal total = (jt, None) ->
  handlers.docs (handlers.trace (handlers.ListStateStats w r d)) =
  [JObject [("page", jp); ("states", js); ("total", jt)]].
Proof.
  intros Hd Hs Hp Ht. unfold handlers.ListStateStats. simpl. rewrite Hd.
  simpl. fold_traces. rewrite docs_lift.
  rewrite (MarshalMap_paged "states" states page total js jp jt
             (pagedResponse_states _ _ _) Hs Hp Ht).
  simpl. fold_traces. by rewrite writeString_written.
Qed.

(** X19: when its three parts can be encoded, the object
    [SearchAttribute] writes has exactly the members "page", "results" and
    "total", in this order. *)
Theorem SearchAttribute_response_shape w r d (result page total : dbq.Any)
    (jr jp jt : json.t) :
  dbq.SearchAttribute d (Query r) = (result, page, total) ->
  dbq.Marshal result = (jr, None) ->
  dbq.Marshal page = (jp, None) ->
  dbq.Marshal total = (jt, None) ->
  handlers.docs (handlers.trace (handlers.SearchAttribute w r d)) =
  [JObject [("page", jp); ("results", jr); ("total", jt)]].
Proof.
  intros Hd Hs Hp Ht. unfold handlers.SearchAttribute. simpl. rewrite Hd.
  simpl. fold_traces. rewrite docs_lift.
  rewrite (MarshalMap_paged "results" result page total jr jp jt
             (pagedResponse_results _ _ _) Hs Hp Ht).
  simpl. fold_traces. by rewrite writeString_written.
Qed.

(** X20: when its three parts can be encoded, the object [GetPlans]
    writes has exactly the members "page", "plans" and "total", in this
    order; the three query parameters are passed to the database as they
    are, the empty string standing for a missing one. *)
Theorem GetPlans_response_shape w r d (plans page total : dbq.Any)
    (jl jp jt : json.t) :
  dbq.GetPlans d (Get (Query r) "lineage") (Get (Query r) "limit")
    (Get (Query r) "page") = (plans, page, total) ->
  dbq.Marshal plans = (jl, None) ->
  dbq.Marshal page = (jp, None) ->
  dbq.Marshal total = (jt, None) ->
  handlers.docs (handlers.trace (handlers.GetPlans w r d)) =
  [JObject [("page", jp); ("plans", jl); ("total", jt)]].
Proof.
  intros Hd Hs Hp Ht. unfold handlers.GetPlans. simpl. rewrite Hd.
  simpl. fold_traces. rewrite respondLogged_trace.
  rewrite (MarshalMap_paged "plans" plans page total jl jp jt
             (pagedResponse_plans _ _ _) Hs Hp Ht).
  simpl. fold_traces. by rewrite docs_lift, writeString_written.
Qed.

(** X21: when its three parts can be encoded, the object
    [GetPlansSummary] writes has exactly the members "page", "plans" and
    "total", in this order. *)
Theorem GetPlansSummary_response_shape w r d (plans page total : dbq.Any)
    (jl jp jt : json.t) :
  dbq.GetPlansSummary d (Get (Query r) "lineage") (Get (Query r) "limit")
    (Get (Query r) "page") = (plans, page, total) ->
  dbq.Marshal plans = (jl, None) ->
  dbq.Marshal page = (jp, None) ->
  dbq.Marshal total = (jt, None) ->
  handlers.docs (handlers.trace (handlers.GetPlansSummary w r d)) =
  [JObject [("page", jp); ("plans", jl); ("total", jt)]].
Proof.
  intros Hd Hs Hp Ht. unfold handlers.GetPlansSummary. simpl. rewrite Hd.
  simpl. fold_traces. rewrite respondLogged_trace.
  rewrite (MarshalMap_paged "plans" plans page total jl jp jt
             (pagedResponse_plans _ _ _) Hs Hp Ht).
  simpl. fold_traces. by rewrite docs_lift, writeString_written.
Qed.

(** X22: when the plan cannot be encoded, [GetPlan] logs "Failed to
    marshal plan: " followed by the error text before it answers with the
    error response "Failed to marshal plan". *)
Theorem GetPlan_marshal_failure_logged w r d (j : json.t) (e : error) :
  dbq.Marshal (dbq.GetPlan d (Get (Query r) "planid")) = (j, Some e) ->
  handlers.trace (handlers.GetPlan w r d) =
    handlers.EvCall (handlers.CGetPlan (Get (Query r) "planid")) ::
    handlers.Ev (EvLogError ("Failed to marshal plan: " +:+ Error e)) ::
    (handlers.Ev <$> trace (JSONError w "Failed to marshal plan" (Some e))) /\
  handlers.docs (handlers.trace (handlers.GetPlan w r d)) =
    [errorDoc "Failed to marshal plan" (Error e)].
Proof.
  intros Hm. unfold handlers.GetPlan. simpl.
  fold_traces. rewrite respondLogged_trace, Hm. simpl. split; [done |].
  fold_traces. by rewrite docs_lift, JSONError_written.
Qed.

(** X23: the handlers that list versions, resource types, resource names
    and attribute keys drop the error the database returns: the response
    is built from the value returned beside it, and is the same whether or
    not the database reported an error. *)
Theorem list_handlers_drop_db_error w r d :
  handlers.docs (handlers.trace (handlers.ListTerraformVersionsWithCount w r d)) =
    written (trace (respond w "Failed to marshal states"
      (dbq.Marshal (dbq.ListTerraformVersionsWithCount d (Query r)).1))) /\
  handlers.docs (handlers.trace (handlers.ListResourceTypes w d)) =
    written (trace (respond w "Failed to marshal json"
      (dbq.Marshal (dbq.ListResourceTypes d).1))) /\
  handlers.docs (handlers.trace (handlers.ListResourceTypesWithCount w d)) =
    written (trace (respond w "Failed to marshal json"
      (dbq.Marshal (dbq.ListResourceTypesWithCount d).1))) /\
  handlers.docs (handlers.trace (handlers.ListResourceNames w d)) =
    written (trace (respond w "Failed to marshal json"
      (dbq.Marshal (dbq.ListResourceNames d).1))) /\
  handlers.docs (handlers.trace (handlers.ListAttributeKeys w r d)) =
    written (trace (respond w "Failed to marshal json"
      (dbq.Marshal
         (dbq.ListAttributeKeys d (Get (Query r) "resource_type")).1))) /\
  handlers.docs (handlers.trace (handlers.ListTfVersions w d)) =
    written (trace (respond w "Failed to marshal json"
      (dbq.Marshal (dbq.ListTfVersions d).1))).
Proof.
  unfold handlers.ListTerraformVersionsWithCount, handlers.ListResourceTypes,
    handlers.ListResourceTypesWithCount, handlers.ListResourceNames,
    handlers.ListAttributeKeys, handlers.ListTfVersions.
  simpl.
  destruct (dbq.ListTerraformVersionsWithCount d (Query r)) as [v1 e1].
  destruct (dbq.ListResourceTypes d) as [v2 e2].
  destruct (dbq.ListResourceTypesWithCount d) as [v3 e3].
  destruct (dbq.ListResourceNames d) as [v4 e4].
  destruct (dbq.ListAttributeKeys d _) as [v5 e5].
  destruct (dbq.ListTfVersions d) as [v6 e6].
  simpl. fold_traces. by rewrite !docs_lift.
Qed.

(** X24: when the two forwarded-identity headers are missing, [GetUser]
    asks [UserInfo] for the user with empty name and empty email, and
    answers with what it returns. *)
Theorem GetUser_missing_headers w r :
  Header r !! "X-Forwarded-User" = None ->
  Header r !! "X-Forwarded-Email" = None ->
  handlers.trace (handlers.GetUser w r) =
    handlers.EvCall (handlers.CUserInfo "" "") ::
    (handlers.Ev <$>
       trace (respond w "Failed to marshal user information"
                (dbq.Marshal (dbq.UserInfo "" "")))).
Proof.
  intros Hu He. unfold handlers.GetUser, Get. by rewrite Hu, He.
Qed.

Lemma respond_lifted_docs_once w failure (res : GoResult json.t) :
  length (handlers.docs (handlers.Ev <$> trace (respond w failure res))) = 1.
Proof. rewrite docs_lift. apply respond_written_once. Qed.

(** X25: every handler that answers a query makes exactly one call to its
    collaborator, with the request parameters passed as they are (the empty
    string for a missing one); none of them reads the request body or
    inserts a plan. *)
Theorem query_handlers_make_one_call w r d :
  handlers.calls (handlers.trace (handlers.ListTerraformVersionsWithCount w r d)) =
    [handlers.CListTerraformVersionsWithCount (Query r)] /\
  handlers.calls (handlers.trace (handlers.ListStateStats w r d)) =
    [handlers.CListStateStats (Query r)] /\
  handlers.calls (handlers.trace (handlers.GetLineageActivity w r d)) =
    [handlers.CGetLineageActivity (index (Vars r) "lineage")] /\
  handlers.calls (handlers.trace (handlers.SearchAttribute w r d)) =
    [handlers.CSearchAttribute (Query r)] /\
  handlers.calls (handlers.trace (handlers.ListResourceTypes w d)) =
    [handlers.CListResourceTypes] /\
  handlers.calls (handlers.trace (handlers.ListResourceTypesWithCount w d)) =
    [handlers.CListResourceTypesWithCount] /\
  handlers.calls (handlers.trace (handlers.ListResourceNames w d)) =
    [handlers.CListResourceNames] /\
  handlers.calls (handlers.trace (handlers.ListAttributeKeys w r d)) =
    [handlers.CListAttributeKeys (Get (Query r) "resource_type")] /\
  handlers.calls (handlers.trace (handlers.ListTfVersions w d)) =
    [handlers.CListTfVersions] /\
  handlers.calls (handlers.trace (handlers.GetUser w r)) =
    [handlers.CUserInfo (Get (Header r) "X-Forwarded-User")
       (Get (Header r) "X-Forwarded-Email")] /\
  handlers.calls (handlers.trace (handlers.GetPlansSummary w r d)) =
    [handlers.CGetPlansSummary (Get (Query r) "lineage")
       (Get (Query r) "limit") (Get (Query r) "page")] /\
  handlers.calls (handlers.trace (handlers.GetPlan w r d)) =
    [handlers.CGetPlan (Get (Query r) "planid")] /\
  handlers.calls (handlers.trace (handlers.GetPlans w r d)) =
    [handlers.CGetPlans (Get (Query r) "lineage") (Get (Query r) "limit")
       (Get (Query r) "page")] /\
  handlers.calls (handlers.trace (handlers.GetLineages w r d)) =
    [handlers.CGetLineages (Get (Query r) "limit")].
Proof.
  unfold handlers.ListTerraformVersionsWithCount, handlers.ListStateStats,
    handlers.GetLineageActivity, handlers.SearchAttribute,
    handlers.ListResourceTypes, handlers.ListResourceTypesWithCount,
    handlers.ListResourceNames, handlers.ListAttributeKeys,
    handlers.ListTfVersions, handlers.GetUser, handlers.GetPlansSummary,
    handlers.GetLineages.
  rewrite GetPlan_calls, GetPlans_calls. simpl.
  destruct (dbq.ListTerraformVersionsWithCount d (Query r)) as [v1 e1].
  destruct (dbq.ListStateStats d (Query r)) as [[s2 p2] t2].
  destruct (dbq.SearchAttribute d (Query r)) as [[s3 p3] t3].
  destruct (dbq.ListResourceTypes d) as [v4 e4].
  destruct (dbq.ListResourceTypesWithCount d) as [v5 e5].
  destruct (dbq.ListResourceNames d) as [v6 e6].
  destruct (dbq.ListAttributeKeys d _) as [v7 e7].
  destruct (dbq.ListTfVersions d) as [v8 e8].
  destruct (dbq.GetPlansSummary d _ _ _) as [[s9 p9] t9].
  simpl. fold_traces. by rewrite !calls_lift, !respondLogged_calls.
Qed.

(** X26: every handler that answers a query writes exactly one document
    for every request, whatever its collaborator and the encoder return. *)
Theorem query_handlers_write_once w r d :
  length (handlers.docs (handlers.trace
    (handlers.ListTerraformVersionsWithCount w r d))) = 1 /\
  length (handlers.docs (handlers.trace (handlers.ListStateStats w r d))) = 1 /\
  length (handlers.docs (handlers.trace (handlers.GetLineageActivity w r d))) = 1 /\
  length (handlers.docs (handlers.trace (handlers.SearchAttribute w r d))) = 1 /\
  length (handlers.docs (handlers.trace (handlers.ListResourceTypes w d))) = 1 /\
  length (handlers.docs (handlers.trace
    (handlers.ListResourceTypesWithCount w d))) = 1 /\
  length (handlers.docs (handlers.trace (handlers.ListResourceNames w d))) = 1 /\
  length (handlers.docs (handlers.trace (handlers.ListAttributeKeys w r d))) = 1 /\
  length (handlers.docs (handlers.trace (handlers.ListTfVersions w d))) = 1 /\
  length (handlers.docs (handlers.trace (handlers.GetUser w r))) = 1 /\
  length (handlers.docs (handlers.trace (handlers.GetPlansSummary w r d))) = 1 /\
  length (handlers.docs (handlers.trace (handlers.GetPlan w r d))) = 1 /\
  length (handlers.docs (handlers.trace (handlers.GetPlans w r d))) = 1 /\
  length (handlers.docs (handlers.trace (handlers.GetLineages w r d))) = 1.
Proof.
  unfold handlers.ListTerraformVersionsWithCount, handlers.ListStateStats,
    handlers.GetLineageActivity, handlers.SearchAttribute,
    handlers.ListResourceTypes, handlers.ListResourceTypesWithCount,
    handlers.ListResourceNames, handlers.ListAttributeKeys,
    handlers.ListTfVersions, handlers.GetUser, handlers.GetPlansSummary,
    handlers.GetPlan, handlers.GetPlans, handlers.GetLineages.
  simpl.
  destruct (dbq.ListTerraformVersionsWithCount d (Query r)) as [v1 e1].
  destruct (dbq.ListStateStats d (Query r)) as [[s2 p2] t2].
  destruct (dbq.SearchAttribute d (Query r)) as [[s3 p3] t3].
  destruct (dbq.ListResourceTypes d) as [v4 e4].
  destruct (dbq.ListResourceTypesWithCount d) as [v5 e5].
  destruct (dbq.ListResourceNames d) as [v6 e6].
  destruct (dbq.ListAttributeKeys d _) as [v7 e7].
  destruct (dbq.ListTfVersions d) as [v8 e8].
  destruct (dbq.GetPlansSummary d _ _ _) as [[s9 p9] t9].
  destruct (dbq.GetPlans d _ _ _) as [[s10 p10] t10].
  simpl. fold_traces.
  rewrite !respond_lifted_docs_once, !respondLogged_docs_once. done.
Qed.

End RemainingHandlers.

(** * The further properties on concrete requests *)

Section MoreLockRuns.
Import example canned.

#[local] Existing Instance example.types.

Lemma lockedAt_lookup (k0 k : string) (l v : state.LockInfo) :
  locksOf (lockedAt k0 l) !! k = Some v -> k = k0 /\ v = l.
Proof.
  unfold locksOf, lockedAt. simpl. intros Hk.
  apply lookup_singleton_Some in Hk as [-> ->]. done.
Qed.

Lemma two_lineages_agree :
  locks.agree [lockedAt "prod/vpc" alice; lockedAt "prod/db" carol].
Proof.
  intros p q k v1 v2 Hp Hq H1 H2.
  repeat (apply elem_of_cons in Hp as [-> | Hp]);
    repeat (apply elem_of_cons in Hq as [-> | Hq]);
    try (by apply elem_of_nil in Hp); try (by apply elem_of_nil in Hq);
    apply lockedAt_lookup in H1 as [-> ->];
    apply lockedAt_lookup in H2 as [? ->]; done.
Defined.

Lemma GetLocks_reports_union_witness :
  Forall succeeds [lockedAt "prod/vpc" alice; lockedAt "prod/db" carol] /\
  exists allLocks,
    (collectLocks okWriter
       [lockedAt "prod/vpc" alice; lockedAt "prod/db" carol] ∅).1 =
      Some allLocks /\
    (forall k v, allLocks !! k = Some v ->
       exists sp, sp ∈ [lockedAt "prod/vpc" alice; lockedAt "prod/db" carol] /\
                  locksOf sp !! k = Some v).
Proof.
  assert (H1 : Forall succeeds
                 [lockedAt "prod/vpc" alice; lockedAt "prod/db" carol])
    by (repeat constructor).
  split; [exact H1 |].
  destruct (GetLocks_reports_union okWriter _ H1) as (allLocks & Hc & _ & Ho).
  exists allLocks. split; [exact Hc | exact Ho].
Defined.

Lemma GetLocks_order_irrelevant_without_conflict_witness :
  [lockedAt "prod/vpc" alice; lockedAt "prod/db" carol] ≡ₚ
    [lockedAt "prod/db" carol; lockedAt "prod/vpc" alice] /\
  Forall succeeds [lockedAt "prod/vpc" alice; lockedAt "prod/db" carol] /\
  locks.agree [lockedAt "prod/vpc" alice; lockedAt "prod/db" carol] /\
  written (trace (GetLocks okWriter
                    [lockedAt "prod/vpc" alice; lockedAt "prod/db" carol])) =
  written (trace (GetLocks okWriter
                    [lockedAt "prod/db" carol; lockedAt "prod/vpc" alice])).
Proof.
  assert (H1 : [lockedAt "prod/vpc" alice; lockedAt "prod/db" carol] ≡ₚ
               [lockedAt "prod/db" carol; lockedAt "prod/vpc" alice])
    by apply perm_swap.
  assert (H2 : Forall succeeds
                 [lockedAt "prod/vpc" alice; lockedAt "prod/db" carol])
    by (repeat constructor).
  split; [exact H1 |]. split; [exact H2 |]. split; [exact two_lineages_agree |].
  exact (proj2 (GetLocks_order_irrelevant_without_conflict okWriter _ _
                  H1 H2 two_lineages_agree)).
Defined.

Lemma GetLocks_members_sorted_witness :
  Forall succeeds [lockedAt "prod/vpc" alice; lockedAt "prod/db" carol] /\
  Sorted String.le
    (members (JObject [("prod/db", (marshalLockInfo carol).1);
                       ("prod/vpc", (marshalLockInfo alice).1)])).*1.
Proof.
  assert (H1 : Forall succeeds
                 [lockedAt "prod/vpc" alice; lockedAt "prod/db" carol])
    by (repeat constructor).
  split; [exact H1 |].
  exact (proj1 (proj2 (GetLocks_members_sorted (H := example.types) okWriter
    [lockedAt "prod/vpc" alice; lockedAt "prod/db" carol]
    (JObject [("prod/db", (marshalLockInfo carol).1);
              ("prod/vpc", (marshalLockInfo alice).1)])
    H1 ltac:(vm_compute; reflexivity)))).
Defined.

End MoreLockRuns.

Section MoreStateRuns.
Import canned.

#[local] Existing Instance canned.types.
#[local] Existing Instance canned.states.

Lemma GetLocks_unencodable_lock_witness :
  Forall succeeds [lockedAt "prod/db" undated] /\
  exists e,
    written (trace (GetLocks example.okWriter [lockedAt "prod/db" undated])) =
      [errorDoc "Failed to marshal locks" (Error e)].
Proof.
  assert (H1 : Forall succeeds [lockedAt "prod/db" undated])
    by (repeat constructor).
  split; [exact H1 |].
  assert (H2 : (collectLocks example.okWriter [lockedAt "prod/db" undated] ∅).1 =
               Some (locksOf (lockedAt "prod/db" undated)))
    by (vm_compute; reflexivity).
  assert (H3 : locksOf (lockedAt "prod/db" undated) !! "prod/db" = Some undated)
    by (vm_compute; reflexivity).
  assert (H4 : (db.marshal_LockInfo undated).2 = Some badTime)
    by (vm_compute; reflexivity).
  destruct (GetLocks_unencodable_lock example.okWriter
              [lockedAt "prod/db" undated] _ "prod/db" undated badTime
              H1 H2 H3 H4)
    as (e & _ & _ & _ & _ & Hw).
  exists e. exact Hw.
Defined.

Lemma GetState_default_version_error_witness :
  Get (Query (example.request "prod/vpc" [])) "versionid" = "" /\
  db.DefaultVersion (Some down)
    (index (Vars (example.request "prod/vpc" [])) "lineage") =
    ("v1", Some down) /\
  statesLoaded (trace (GetState example.okWriter
                         (example.request "prod/vpc" []) (Some down))) = [].
Proof.
  assert (H1 : Get (Query (example.request "prod/vpc" [])) "versionid" = "")
    by (vm_compute; reflexivity).
  assert (H2 : db.DefaultVersion (Some down)
                 (index (Vars (example.request "prod/vpc" [])) "lineage") =
               ("v1", Some down)) by reflexivity.
  split; [exact H1 |]. split; [exact H2 |].
  exact (proj2 (proj2 (GetState_default_version_error example.okWriter
                         (example.request "prod/vpc" []) (Some down)
                         "v1" down H1 H2))).
Defined.


Lemma StateCompare_compare_error_witness :
  db.Compare
    (db.GetState (None : option error)
       (index (Vars (example.request "prod/vpc" [])) "lineage")
       (Get (Query (example.request "prod/vpc" [])) "from"))
    (db.GetState (None : option error)
       (index (Vars (example.request "prod/vpc" [])) "lineage")
       (Get (Query (example.request "prod/vpc" [])) "to")) =
    (false, Some incomparable) /\
  written (trace (StateCompare example.okWriter
                    (example.request "prod/vpc" []) None)) =
    [errorDoc "Failed to compare state versions" (Error incomparable)].
Proof.
  assert (H1 : db.Compare
    (db.GetState (None : option error)
       (index (Vars (example.request "prod/vpc" [])) "lineage")
       (Get (Query (example.request "prod/vpc" [])) "from"))
    (db.GetState (None : option error)
       (index (Vars (example.request "prod/vpc" [])) "lineage")
       (Get (Query (example.request "prod/vpc" [])) "to")) =
    (false, Some incomparable)) by (vm_compute; reflexivity).
  split; [exact H1 |].
  exact (StateCompare_compare_error example.okWriter
           (example.request "prod/vpc" []) None false incomparable H1).
Defined.

End MoreStateRuns.

Section MoreHandlerRuns.
Import canned.

#[local] Existing Instance canned.types.
#[local] Existing Instance canned.values.
#[local] Existing Instance canned.database.

Abbreviation okWriter := example.okWriter.

Lemma ManagePlans_invalid_method_witness :
  Method (fullRequest "DELETE" [] ("", None)) <> "GET" /\
  Method (fullRequest "DELETE" [] ("", None)) <> "POST" /\
  handlers.trace (handlers.ManagePlans okWriter
                    (fullRequest "DELETE" [] ("", None)) None) =
    [handlers.EvHttpError "Invalid request method." 405].
Proof.
  assert (H1 : Method (fullRequest "DELETE" [] ("", None)) <> "GET")
    by discriminate.
  assert (H2 : Method (fullRequest "DELETE" [] ("", None)) <> "POST")
    by discriminate.
  split; [exact H1 |]. split; [exact H2 |].
  exact (proj1 (ManagePlans_invalid_method okWriter
                  (fullRequest "DELETE" [] ("", None)) None H1 H2)).
Defined.

Lemma ManagePlans_get_routing_witness :
  Method (fullRequest "GET" [("planid", [""])] ("", None)) = "GET" /\
  handlers.calls (handlers.trace (handlers.ManagePlans okWriter
    (fullRequest "GET" [("planid", [""])] ("", None)) None)) =
  [handlers.CGetPlans "" "" ""].
Proof.
  split; [reflexivity |].
  exact (ManagePlans_get_routing okWriter
           (fullRequest "GET" [("planid", [""])] ("", None)) None eq_refl).
Defined.

Lemma ManagePlans_inserts_only_on_post_witness :
  handlers.CInsertPlan "plan" ∈
    handlers.calls (handlers.trace (handlers.ManagePlans okWriter
      (fullRequest "POST" [] ("plan", None)) None)) /\
  Method (fullRequest "POST" [] ("plan", None)) = "POST" /\
  Body (fullRequest "POST" [] ("plan", None)) = ("plan", None).
Proof.
  assert (H1 : handlers.CInsertPlan "plan" ∈
    handlers.calls (handlers.trace (handlers.ManagePlans okWriter
      (fullRequest "POST" [] ("plan", None)) None)))
    by (apply list_elem_of_further, list_elem_of_here).
  split; [exact H1 |].
  exact (ManagePlans_inserts_only_on_post okWriter
           (fullRequest "POST" [] ("plan", None)) None "plan" H1).
Defined.

Lemma SubmitPlan_success_is_silent_witness :
  Body (fullRequest "POST" [] ("plan", None)) = ("plan", None) /\
  dbq.InsertPlan (None : option error) "plan" = None /\
  handlers.docs (handlers.trace (handlers.SubmitPlan okWriter
    (fullRequest "POST" [] ("plan", None)) None)) = [].
Proof.
  split; [reflexivity |]. split; [reflexivity |].
  exact (proj1 (proj2 (SubmitPlan_success_is_silent okWriter
    (fullRequest "POST" [] ("plan", None)) None "plan" eq_refl eq_refl))).
Defined.

Lemma SubmitPlan_read_failure_witness :
  Body (fullRequest "POST" [] ("pl", Some down)) = ("pl", Some down) /\
  handlers.calls (handlers.trace (handlers.SubmitPlan okWriter
    (fullRequest "POST" [] ("pl", Some down)) None)) = [handlers.CReadAll].
Proof.
  split; [reflexivity |].
  exact (proj1 (proj2 (SubmitPlan_read_failure okWriter
    (fullRequest "POST" [] ("pl", Some down)) None "pl" down eq_refl))).
Defined.

Lemma SubmitPlan_insert_failure_witness :
  Body (fullRequest "POST" [] ("plan", None)) = ("plan", None) /\
  dbq.InsertPlan (Some down) "plan" = Some down /\
  handlers.docs (handlers.trace (handlers.SubmitPlan okWriter
    (fullRequest "POST" [] ("plan", None)) (Some down))) =
  [errorDoc "Failed to insert plan to db" (Error down)].
Proof.
  split; [reflexivity |]. split; [reflexivity |].
  exact (proj2 (SubmitPlan_insert_failure okWriter
    (fullRequest "POST" [] ("plan", None)) (Some down) "plan" down
    eq_refl eq_refl)).
Defined.

Lemma ListStateStats_response_shape_witness :
  dbq.ListStateStats (None : option error)
    (Query (fullRequest "GET" [] ("", None))) =
    (rows ["prod/vpc"], num 1, num 1) /\
  handlers.docs (handlers.trace (handlers.ListStateStats okWriter
    (fullRequest "GET" [] ("", None)) None)) =
  [JObject [("page", JNumber 1); ("states", JArray [JString "prod/vpc"]);
            ("total", JNumber 1)]].
Proof.
  split; [reflexivity |].
  exact (ListStateStats_response_shape okWriter
    (fullRequest "GET" [] ("", None)) None (rows ["prod/vpc"]) (num 1) (num 1)
    _ _ _ eq_refl eq_refl eq_refl eq_refl).
Defined.

Lemma SearchAttribute_response_shape_witness :
  dbq.SearchAttribute (None : option error)
    (Query (fullRequest "GET" [] ("", None))) =
    (rows ["cidr_block"], num 1, num 1) /\
  handlers.docs (handlers.trace (handlers.SearchAttribute okWriter
    (fullRequest "GET" [] ("", None)) None)) =
  [JObject [("page", JNumber 1); ("results", JArray [JString "cidr_block"]);
            ("total", JNumber 1)]].
Proof.
  split; [reflexivity |].
  exact (SearchAttribute_response_shape okWriter
    (fullRequest "GET" [] ("", None)) None (rows ["cidr_block"]) (num 1) (num 1)
    _ _ _ eq_refl eq_refl eq_refl eq_refl).
Defined.

Lemma GetPlans_response_shape_witness :
  dbq.GetPlans (None : option error) "" "" "" = (rows [""], num 1, num 1) /\
  handlers.docs (handlers.trace (handlers.GetPlans okWriter
    (fullRequest "GET" [] ("", None)) None)) =
  [JObject [("page", JNumber 1); ("plans", JArray [JString ""]);
            ("total", JNumber 1)]].
Proof.
  split; [reflexivity |].
  exact (GetPlans_response_shape okWriter
    (fullRequest "GET" [] ("", None)) None (rows [""]) (num 1) (num 1)
    _ _ _ eq_refl eq_refl eq_refl eq_refl).
Defined.

Lemma GetPlansSummary_response_shape_witness :
  dbq.GetPlansSummary (None : option error) "" "" "" =
    (rows [""], num 1, num 1) /\
  handlers.docs (handlers.trace (handlers.GetPlansSummary okWriter
    (fullRequest "GET" [] ("", None)) None)) =
  [JObject [("page", JNumber 1); ("plans", JArray [JString ""]);
            ("total", JNumber 1)]].
Proof.
  split; [reflexivity |].
  exact (GetPlansSummary_response_shape okWriter
    (fullRequest "GET" [] ("", None)) None (rows [""]) (num 1) (num 1)
    _ _ _ eq_refl eq_refl eq_refl eq_refl).
Defined.

Lemma GetPlan_marshal_failure_logged_witness :
  dbq.Marshal (dbq.GetPlan (Some down)
    (Get (Query (fullRequest "GET" [("planid", ["7"])] ("", None))) "planid")) =
    (JNull, Some down) /\
  handlers.docs (handlers.trace (handlers.GetPlan okWriter
    (fullRequest "GET" [("planid", ["7"])] ("", None)) (Some down))) =
  [errorDoc "Failed to marshal plan" (Error down)].
Proof.
  split; [reflexivity |].
  exact (proj2 (GetPlan_marshal_failure_logged okWriter
    (fullRequest "GET" [("planid", ["7"])] ("", None)) (Some down)
    JNull down eq_refl)).
Defined.

Lemma GetUser_missing_headers_witness :
  Header (fullRequest "GET" [] ("", None)) !! "X-Forwarded-User" = None /\
  Header (fullRequest "GET" [] ("", None)) !! "X-Forwarded-Email" = None /\
  handlers.calls (handlers.trace (handlers.GetUser okWriter
    (fullRequest "GET" [] ("", None)))) = [handlers.CUserInfo "" ""].
Proof.
  split; [reflexivity |]. split; [reflexivity |].
  rewrite (GetUser_missing_headers okWriter
             (fullRequest "GET" [] ("", None)) eq_refl eq_refl).
  reflexivity.
Defined.

End MoreHandlerRuns.
